(** * Customer support bot: retrieval and feedback engine

    Shallow embedding of [app.py], the session handler behind the chat
    front end, followed by the properties of the relevance resolver,
    the answer step, the feedback refiner and the session state machine.
    [support_bot_agent.py] is not embedded: the docstring of its
    [adjust_response] is indented deeper than the statements after it,
    so the module raises [IndentationError] when it is imported and none
    of its methods can run.

    Modelling conventions.
    - A Python [str] is the [string] of its UTF-8 bytes.  Comparison,
      concatenation, [endswith] on an ASCII suffix and [split] at blank
      lines are the same on the bytes as on the characters; slicing
      counts characters, not bytes.
    - [str.lower] and [str.split] rest on the Unicode character
      database, which is no part of the repository: they are the
      variables [lower] and [split] of the sections below, and every
      theorem holds whatever they are.  The examples run with their
      restrictions to ASCII text.
    - A similarity score is a rational number ([Q]): every finite float
      is one, and the comparison against the threshold is the exact one.
    - The embedder and the question-answering pipeline are external
      models: they are the variables of the sections below.
    - A Python exception is the [Raise] outcome of a [result]; a handler
      that mutates the session dictionary and then raises leaves the
      mutations in place.
    - Calls to [logging] only write to the log file, which the code
      never reads back; they are left out. *)

From Stdlib Require Import Ascii String QArith.
From stdpp Require Import base list strings gmap.

Local Open Scope string_scope.

(** ** Python strings *)

Module PyStr.

Definition newline : ascii := Ascii.ascii_of_nat 10.

(** [text.split('\n\n')]: cut at every blank line, scanning from the
    left; the pieces keep everything else, and there is always one. *)
Fixpoint split_blank_lines (s : string) : list string :=
  match s with
  | EmptyString => [EmptyString]
  | String c rest =>
      match rest with
      | String c' rest' =>
          if Ascii.eqb c newline && Ascii.eqb c' newline
          then EmptyString :: split_blank_lines rest'
          else match split_blank_lines rest with
               | piece :: pieces => String c piece :: pieces
               | [] => [String c EmptyString]
               end
      | EmptyString => [String c EmptyString]
      end
  end.

(** [s.endswith(suffix)]. *)
Definition endswith (s suffix : string) : bool :=
  let n := String.length s in
  let m := String.length suffix in
  (m <=? n)%nat && String.eqb (substring (n - m) m s) suffix.

(** [sep.join(pieces)] *)
Fixpoint join (sep : string) (pieces : list string) : string :=
  match pieces with
  | [] => EmptyString
  | [piece] => piece
  | piece :: rest => piece ++ sep ++ join sep rest
  end.

(** ['\n\n' in s] *)
Fixpoint has_blank_line (s : string) : bool :=
  match s with
  | EmptyString => false
  | String c rest =>
      match rest with
      | String c' _ =>
          (Ascii.eqb c newline && Ascii.eqb c' newline) || has_blank_line rest
      | EmptyString => false
      end
  end.

(** A byte [10xxxxxx] continues the character begun before it. *)
Definition is_continuation (c : ascii) : bool :=
  let n := Ascii.nat_of_ascii c in
  (128 <=? n)%nat && (n <? 192)%nat.

(** [len(s)]: the number of characters, one per byte that begins one. *)
Fixpoint char_length (s : string) : nat :=
  match s with
  | EmptyString => 0
  | String c rest =>
      if is_continuation c then char_length rest else S (char_length rest)
  end.

(** [s[:n]]: the first [n] characters, or all of [s] when it is
    shorter.  The bytes that continue a character go with it. *)
Fixpoint slice_to (n : nat) (s : string) : string :=
  match s with
  | EmptyString => EmptyString
  | String c rest =>
      if is_continuation c then String c (slice_to n rest)
      else match n with
           | O => EmptyString
           | S n' => String c (slice_to n' rest)
           end
  end.

End PyStr.

(** ** Outcomes of Python calls *)

Inductive exn : Type :=
  | RuntimeError   (* torch: no similarity to take the largest of *)
  | IndexError     (* list index out of range *)
  | TypeError      (* [None] where a string, list or tensor is expected *)
  | ValueError     (* raised by the question-answering pipeline *)
  | OSError        (* a file that cannot be read *).

Inductive result (A : Type) : Type :=
  | Ok (a : A)
  | Raise (e : exn).

Arguments Ok {A} a.
Arguments Raise {A} e.

(** ** Relevance resolver ([find_relevant_section]) *)

Definition stopwords : gset string :=
  list_to_set ["and"; "the"; "is"; "for"; "to"; "a"; "an"; "of"; "in"; "on";
               "at"; "with"; "by"; "it"; "as"; "so"; "what"].

Definition SIMILARITY_THRESHOLD : Q := 0.4.

Definition sentinel : string := "I don’t have enough information to answer that.".

(** [torch.argmax] over a one-dimensional tensor: the index of the
    largest entry, the first one when several entries are largest.
    [best_i] is the index of [best], the largest entry seen so far;
    [i] is the index of the head of [l]. *)
Fixpoint argmax_from (best_i : nat) (best : Q) (i : nat) (l : list Q) : nat :=
  match l with
  | [] => best_i
  | x :: rest =>
      if Qle_bool x best
      then argmax_from best_i best (S i) rest
      else argmax_from i x (S i) rest
  end.

Definition argmax (l : list Q) : result nat :=
  match l with
  | [] => Raise RuntimeError
  | x :: rest => Ok (argmax_from 0 x 1 rest)
  end.

Section Tokens.

(** [str.lower] and [str.split]. *)
Variable lower : string -> string.
Variable split : string -> list string.

(** [{word for word in text.lower().split() if word not in stopwords}] *)
Definition significant_words (text : string) : gset string :=
  list_to_set (filter (fun word => word ∉ stopwords) (split (lower text))).

(** The keyword loop: the first section sharing two significant words
    with the query, when there is one. *)
Fixpoint keyword_search (query_words : gset string) (sections : list string)
  : option string :=
  match sections with
  | [] => None
  | section :: rest =>
      let section_words := significant_words section in
      let common_words := query_words ∩ section_words in
      if decide (2 <= size common_words)%nat then Some section
      else keyword_search query_words rest
  end.

End Tokens.

(** The token set as the specification words it: lower-case the text,
    split it at white space, drop the seventeen stop words. *)
Definition spec_tokens (lower : string -> string)
    (split : string -> list string) (text : string) : gset string :=
  list_to_set
    (filter
       (fun token =>
          existsb (String.eqb token)
            ["and"; "the"; "is"; "for"; "to"; "a"; "an"; "of"; "in"; "on";
             "at"; "with"; "by"; "it"; "as"; "so"; "what"] = false)
       (split (lower text))).

(** The number of tokens of the specification's token sets that a query
    and a section share. *)
Definition spec_overlap (lower : string -> string)
    (split : string -> list string) (query section : string) : nat :=
  size (spec_tokens lower split query ∩ spec_tokens lower split section).

Section Resolver.

Variable lower : string -> string.
Variable split : string -> list string.

(** The sentence embedder: [embedder.encode] on one string, and
    [util.cos_sim] between two embeddings. *)
Variable embedding : Type.
Variable encode : string -> embedding.
Variable cos_sim : embedding -> embedding -> Q.

(** [util.cos_sim(query_embedding, section_embeddings)[0]] *)
Definition similarities (query : string) (section_embeddings : list embedding)
  : list Q :=
  map (cos_sim (encode query)) section_embeddings.

Definition find_relevant_section (query : string) (sections : list string)
    (section_embeddings : list embedding) : result string :=
  match argmax (similarities query section_embeddings) with
  | Raise e => Raise e
  | Ok best_idx =>
      match sections !! best_idx with
      | None => Raise IndexError
      | Some best_section =>
          let similarity_score :=
            nth best_idx (similarities query section_embeddings) 0%Q in
          if Qle_bool SIMILARITY_THRESHOLD similarity_score
          then Ok best_section
          else
            let query_words := significant_words lower split query in
            match keyword_search lower split query_words sections with
            | Some section => Ok section
            | None => Ok sentinel
            end
      end
  end.

End Resolver.

(** ** Effects: a session that survives exceptions

    [M S A] is a computation over a mutable store [S] that returns an
    [A] or raises; the store is handed back in both cases. *)

Definition M (S A : Type) : Type := S -> result A * S.

Definition ret {S A} (a : A) : M S A := fun s => (Ok a, s).

Definition bind {S A B} (m : M S A) (k : A -> M S B) : M S B :=
  fun s =>
    match m s with
    | (Ok a, s') => k a s'
    | (Raise e, s') => (Raise e, s')
    end.

Definition raise {S A} (e : exn) : M S A := fun s => (Raise e, s).

Definition get {S} : M S S := fun s => (Ok s, s).

Definition modify {S} (f : S -> S) : M S unit := fun s => (Ok tt, f s).

Definition lift_result {S A} (r : result A) : M S A := fun s => (r, s).

Declare Scope py_scope.
Delimit Scope py_scope with py.

Notation "x <- c1 ;; c2" := (bind c1 (fun x => c2))
  (at level 100, c1 at next level, right associativity) : py_scope.
Notation "c1 ;; c2" := (bind c1 (fun _ => c2))
  (at level 100, right associativity) : py_scope.

(** One call of the question-answering pipeline:
    [qa_model(question=..., context=..., max_answer_len=...)]. *)
Record qa_call : Type := QA {
  question : string;
  context : string;
  max_answer_len : option nat
}.

Definition nl : string := String PyStr.newline EmptyString.

(** [str(x)] of an entry of the session dictionary inside an f-string. *)
Definition fmt (x : option string) : string :=
  match x with
  | Some s => s
  | None => "None"
  end.

Definition detail_request : string :=
  " Please provide more detailed information with examples.".

(** [f"{response}\n\n(More details:\n{context[:500]}...)"] *)
Definition more_details (response context : string) : string :=
  response ++ nl ++ nl ++ "(More details:" ++ nl
           ++ PyStr.slice_to 500 context ++ "...)".

(** ** The session dictionary of [app.py] *)

Inductive Mode : Type :=
  | waiting_for_upload
  | waiting_for_query
  | waiting_for_feedback.

(** The keys of [initial_state]; [None] is Python's [None]. *)
Record State (embedding : Type) : Type := mkState {
  document_text : option string;
  sections : option (list string);
  section_embeddings : option (list embedding);
  current_query : option string;
  feedback_count : nat;
  mode : Mode;
  chat_history : list (string * string);
  last_answer : option string
}.

Arguments mkState {embedding}.
Arguments document_text {embedding}.
Arguments sections {embedding}.
Arguments section_embeddings {embedding}.
Arguments current_query {embedding}.
Arguments feedback_count {embedding}.
Arguments mode {embedding}.
Arguments chat_history {embedding}.
Arguments last_answer {embedding}.

(** The store of a handler: the session dictionary and the calls made
    to the question-answering pipeline so far, oldest first. *)
Record World (embedding : Type) : Type := mkWorld {
  session : State embedding;
  qa_calls : list qa_call
}.

Arguments mkWorld {embedding}.
Arguments session {embedding}.
Arguments qa_calls {embedding}.

Section Session.

Variable lower : string -> string.
Variable split : string -> list string.
Variable embedding : Type.
Variable encode : string -> embedding.
Variable cos_sim : embedding -> embedding -> Q.

(** The question-answering pipeline: question, context and the
    optional cap on the answer length give an answer, or an error. *)
Variable qa_model : string -> string -> option nat -> result string.

Abbreviation State := (State embedding).
Abbreviation World := (World embedding).

Definition on_session (f : State -> State) : M World unit :=
  modify (fun w => mkWorld (f (session w)) (qa_calls w)).

Definition set_current_query (v : option string) : M World unit :=
  on_session (fun s =>
    mkState (document_text s) (sections s) (section_embeddings s) v
            (feedback_count s) (mode s) (chat_history s) (last_answer s)).

Definition set_feedback_count (v : nat) : M World unit :=
  on_session (fun s =>
    mkState (document_text s) (sections s) (section_embeddings s)
            (current_query s) v (mode s) (chat_history s) (last_answer s)).

Definition set_mode (v : Mode) : M World unit :=
  on_session (fun s =>
    mkState (document_text s) (sections s) (section_embeddings s)
            (current_query s) (feedback_count s) v (chat_history s)
            (last_answer s)).

Definition set_last_answer (v : option string) : M World unit :=
  on_session (fun s =>
    mkState (document_text s) (sections s) (section_embeddings s)
            (current_query s) (feedback_count s) (mode s) (chat_history s) v).

(** [state['chat_history'].append(turn)] *)
Definition append_chat (turn : string * string) : M World unit :=
  on_session (fun s =>
    mkState (document_text s) (sections s) (section_embeddings s)
            (current_query s) (feedback_count s) (mode s)
            (chat_history s ++ [turn]) (last_answer s)).

(** [qa_model(question=q, context=c)['answer']], recorded. *)
Definition call_qa (q c : string) (cap : option nat) : M World string :=
  fun w =>
    (qa_model q c cap, mkWorld (session w) (qa_calls w ++ [QA q c cap])).

(** [find_relevant_section(query, state['sections'],
    state['section_embeddings'])] on the entries of the dictionary. *)
Definition resolve (query : option string) : M World string :=
  (w <- get ;;
   match query, sections (session w), section_embeddings (session w) with
   | Some q, Some secs, Some embs =>
       lift_result
         (find_relevant_section lower split embedding encode cos_sim
            q secs embs)
   | _, _, _ => raise TypeError
   end)%py.

(** [query + suffix], where [query] is an entry of the dictionary. *)
Definition concat_query (query : option string) (suffix : string)
  : M World string :=
  match query with
  | Some q => ret (q ++ suffix)
  | None => raise TypeError
  end.

Definition feedback_prompt : string :=
  "Please provide feedback: good, too vague, not helpful.".

(** Lines 133 to 136: store the adjusted answer and count the round. *)
Definition accept_adjusted (adjusted_answer : string) : M World unit :=
  (set_last_answer (Some adjusted_answer) ;;
   w <- get ;;
   set_feedback_count (feedback_count (session w) + 1) ;;
   append_chat ("Bot", "Updated answer: " ++ adjusted_answer ++ nl
                        ++ feedback_prompt))%py.

Definition handle_input (user_input : string)
  : M World (list (string * string)) :=
  (w <- get ;;
   match mode (session w) with
   | waiting_for_upload =>
       append_chat ("Bot", "Please upload a file first.")
   | waiting_for_query =>
       let query := user_input in
       set_current_query (Some query) ;;
       set_feedback_count 0 ;;
       context <- resolve (Some query) ;;
       answer <- (if String.eqb context sentinel then ret context
                  else call_qa query context None) ;;
       set_last_answer (Some answer) ;;
       set_mode waiting_for_feedback ;;
       append_chat ("User", query) ;;
       append_chat ("Bot", "Answer: " ++ answer ++ nl ++ feedback_prompt)
   | waiting_for_feedback =>
       let feedback := lower user_input in
       append_chat ("User", feedback) ;;
       if String.eqb feedback "good" || (2 <=? feedback_count (session w))%nat
       then
         set_mode waiting_for_query ;;
         if String.eqb feedback "good"
         then append_chat ("Bot",
                "Thank you for your feedback. You can ask another question.")
         else append_chat ("Bot",
                "Maximum feedback iterations reached. You can ask another question.")
       else
         let query := current_query (session w) in
         context <- resolve query ;;
         if String.eqb feedback "too vague"
         then accept_adjusted
                (more_details (fmt (last_answer (session w))) context)
         else if String.eqb feedback "not helpful"
         then augmented <- concat_query query detail_request ;;
              adjusted_answer <- call_qa augmented context None ;;
              accept_adjusted adjusted_answer
         else append_chat ("Bot",
                "Please provide valid feedback: good, too vague, not helpful.")
   end ;;
   w' <- get ;;
   ret (chat_history (session w')))%py.

(** An uploaded file: its path, and what reading the path gives.
    [read_text] is [open(path).read()], [extract_text_from_pdf] the
    PyPDF2 page loop; both may fail. *)
Variable read_text : string -> result string.
Variable extract_text_from_pdf : string -> result string.

(** [embedder.encode(sections, convert_to_tensor=True)] *)
Definition encode_all (sections : list string) : list embedding :=
  map encode sections.

Definition load_file (text : string) : M World (list (string * string)) :=
  let sections := PyStr.split_blank_lines text in
  let section_embeddings := encode_all sections in
  (on_session (fun s =>
     mkState (Some text) (Some sections) (Some section_embeddings) None 0
             waiting_for_query
             [("Bot", "File processed. You can now ask questions.")]
             (last_answer s)) ;;
   w' <- get ;;
   ret (chat_history (session w')))%py.

Definition process_file (file : option string)
  : M World (list (string * string)) :=
  match file with
  | None => ret [("Bot", "Please upload a file.")]
  | Some file_path =>
      if PyStr.endswith (lower file_path) ".pdf"
      then (text <- lift_result (extract_text_from_pdf file_path) ;;
            load_file text)%py
      else if PyStr.endswith (lower file_path) ".txt"
      then (text <- lift_result (read_text file_path) ;;
            load_file text)%py
      else ret [("Bot",
             "Unsupported file format. Please upload a PDF or TXT file.")]
  end.

Definition initial_state : State :=
  mkState None None None None 0 waiting_for_upload
          [("Bot", "Please upload a PDF or TXT file to start.")] None.

End Session.

(** ** A small instance of the models

    [lower] and [split] are [str.lower] and [str.split] on ASCII text.
    Embeddings are the sets of significant words; the similarity of two
    of them is the share of the query's words found in the section
    (0 for a query without words).  The pipeline answers with the first
    word of the context and rejects an empty question or context, as
    the transformers pipeline does. *)

Module Demo.

(** [str.lower] on ASCII text: the 26 capital letters move down by 32. *)
Definition lower_char (c : ascii) : ascii :=
  let n := Ascii.nat_of_ascii c in
  if (65 <=? n)%nat && (n <=? 90)%nat then Ascii.ascii_of_nat (n + 32) else c.

Fixpoint lower (s : string) : string :=
  match s with
  | EmptyString => EmptyString
  | String c rest => String (lower_char c) (lower rest)
  end.

(** The ASCII characters [str.split()] treats as white space:
    tab, line feed, vertical tab, form feed, carriage return,
    the four separators 28 to 31, and the space. *)
Definition isspace (c : ascii) : bool :=
  let n := Ascii.nat_of_ascii c in
  ((9 <=? n)%nat && (n <=? 13)%nat) || ((28 <=? n)%nat && (n <=? 32)%nat).

(** [s.split()]: the maximal runs of characters that are not white
    space, in order.  [cur] is the run being read, in reverse. *)
Fixpoint split_from (cur : string) (s : string) : list string :=
  match s with
  | EmptyString =>
      match cur with
      | EmptyString => []
      | _ => [String.rev cur]
      end
  | String c rest =>
      if isspace c then
        match cur with
        | EmptyString => split_from EmptyString rest
        | _ => String.rev cur :: split_from EmptyString rest
        end
      else split_from (String c cur) rest
  end.

Definition split (s : string) : list string := split_from EmptyString s.

Definition embedding : Type := gset string.

Definition encode (text : string) : embedding :=
  significant_words lower split text.

Definition cos_sim (q s : embedding) : Q :=
  if decide (size q = 0)%nat then 0
  else Z.of_nat (size (q ∩ s)) # Pos.of_nat (size q).

Definition qa_model (q c : string) (cap : option nat) : result string :=
  match split q, split c with
  | _ :: _, word :: _ => Ok word
  | _, _ => Raise ValueError
  end.

Definition read_text (path : string) : result string :=
  if String.eqb path "faq.txt"
  then Ok ("Returns are accepted within 30 days." ++ nl ++ nl
           ++ "Shipping takes 5-7 business days.")
  else Raise OSError.

Definition extract_text_from_pdf (path : string) : result string :=
  Raise OSError.

Abbreviation World := (World embedding).

Definition handle_input :=
  handle_input lower split embedding encode cos_sim qa_model.

Definition process_file :=
  process_file lower embedding encode read_text extract_text_from_pdf.

(** The store after a handler, whatever its outcome. *)
Definition after {A} (m : M World A) (w : World) : World := snd (m w).

Definition fresh : World := mkWorld (initial_state embedding) [].

Definition uploaded : World := after (process_file (Some "faq.txt")) fresh.

Definition asked : World :=
  after (handle_input "Shipping takes how long?") uploaded.

Definition refined_once : World := after (handle_input "Not helpful") asked.

Definition refined_twice : World :=
  after (handle_input "not helpful") refined_once.

End Demo.

(** ** Reachable sessions *)

Section Reachability.

Variable lower : string -> string.
Variable split : string -> list string.
Variable embedding : Type.
Variable encode : string -> embedding.
Variable cos_sim : embedding -> embedding -> Q.
Variable qa_model : string -> string -> option nat -> result string.
Variable read_text : string -> result string.
Variable extract_text_from_pdf : string -> result string.

(** The sessions the front end can be in: it starts from
    [initial_state], and every submitted input or uploaded file runs
    a handler on the session; a handler that raises leaves the
    dictionary as it was when the exception left it. *)
Inductive reachable : State embedding -> Prop :=
  | reachable_initial :
      reachable (initial_state embedding)
  | reachable_input (w : World embedding) (user_input : string) :
      reachable (session w) ->
      reachable
        (session (snd (handle_input lower split embedding encode cos_sim
                         qa_model user_input w)))
  | reachable_upload (w : World embedding) (file : option string) :
      reachable (session w) ->
      reachable
        (session (snd (process_file lower embedding encode read_text
                         extract_text_from_pdf file w))).

(** What holds of every reachable session: the counter is at most 2;
    once a file is loaded there are sections, at least one, each with
    its embedding; while feedback is awaited there are a query and an
    answer. *)
Definition session_ok (s : State embedding) : Prop :=
  feedback_count s <= 2 /\
  (mode s <> waiting_for_upload ->
   exists secs, sections s = Some secs /\ secs <> [] /\
                section_embeddings s = Some (map encode secs)) /\
  (mode s = waiting_for_feedback ->
   exists q a, current_query s = Some q /\ last_answer s = Some a).

End Reachability.

(** Reachability with the models of the example. *)
Abbreviation demo_reachable :=
  (reachable Demo.lower Demo.split Demo.embedding Demo.encode Demo.cos_sim
     Demo.qa_model Demo.read_text Demo.extract_text_from_pdf).

(** * Properties *)

(** ** Python strings *)

Example lower_ex : Demo.lower "How LONG?" = "how long?".
Proof. reflexivity. Qed.

Example split_ex : Demo.split "  how  long
does it " = ["how"; "long"; "does"; "it"].
Proof. reflexivity. Qed.

Example split_blank_lines_ex :
  PyStr.split_blank_lines ("a" ++ nl ++ nl ++ nl ++ "b" ++ nl ++ "c" ++ nl ++ nl)
  = ["a"; nl ++ "b" ++ nl ++ "c"; ""].
Proof. reflexivity. Qed.

Lemma split_blank_lines_nonempty (text : string) :
  PyStr.split_blank_lines text <> [].
Proof.
  destruct text as [|c [|c' rest]]; simpl; try discriminate.
  destruct (Ascii.eqb c PyStr.newline && Ascii.eqb c' PyStr.newline);
    [discriminate|].
  destruct (match rest with EmptyString => _ | String _ _ => _ end);
    discriminate.
Qed.

Example slice_to_ex :
  PyStr.slice_to 3 "né à Paris" = "né " /\
  PyStr.char_length "né à Paris" = 10 /\ String.length "né à Paris" = 12.
Proof. repeat split; reflexivity. Qed.

Example threshold_ex : (SIMILARITY_THRESHOLD == 2 # 5)%Q.
Proof. reflexivity. Qed.

Example words_ex :
  significant_words Demo.lower Demo.split "What is THE refund policy"
  = {[ "refund"; "policy" ]}.
Proof. vm_compute. reflexivity. Qed.

Example kw_ex :
  keyword_search Demo.lower Demo.split
    (significant_words Demo.lower Demo.split "refund policy for shoes")
    ["shoes are nice"; "the refund policy"; "refund policy shoes"]
  = Some "the refund policy".
Proof. vm_compute. reflexivity. Qed.

Example asked_ex :
  session Demo.asked =
  mkState (document_text (session Demo.uploaded))
          (Some ["Returns are accepted within 30 days.";
                 "Shipping takes 5-7 business days."])
          (section_embeddings (session Demo.uploaded))
          (Some "Shipping takes how long?") 0 waiting_for_feedback
          (chat_history (session Demo.asked)) (Some "Shipping").
Proof. vm_compute. reflexivity. Qed.

(** ** The first largest entry *)

Section Argmax.

Local Open Scope Q_scope.

(** When nothing in [l] beats [best], its index stands. *)
Lemma argmax_from_keep (l : list Q) (best_i i : nat) (best : Q) :
  Forall (fun w => w <= best) l ->
  argmax_from best_i best i l = best_i.
Proof.
  revert i. induction l as [|x rest IH]; intros i Hall; [reflexivity|].
  inversion Hall as [|? ? Hx Hrest]; subst. simpl.
  apply Qle_bool_iff in Hx. rewrite Hx. auto.
Qed.

(** When the entry [v] at position [k] of [l] beats [best], is not
    beaten within [l] and is strictly above everything before it,
    it is the one selected. *)
Lemma argmax_from_take (l : list Q) (best_i i k : nat) (best v : Q) :
  l !! k = Some v ->
  best < v ->
  Forall (fun w => w <= v) l ->
  Forall (fun w => w < v) (take k l) ->
  argmax_from best_i best i l = (i + k)%nat.
Proof.
  revert best_i i k best.
  induction l as [|x rest IH]; intros best_i i k best Hk Hbest Hall Hpre;
    [discriminate|].
  inversion Hall as [|? ? Hx Hrest]; subst.
  destruct k as [|k]; simpl in *.
  - injection Hk as ->.
    destruct (Qle_bool v best) eqn:E.
    + apply Qle_bool_iff in E. exfalso.
      apply (Qlt_irrefl v). eapply Qle_lt_trans; eauto.
    + rewrite argmax_from_keep by assumption. lia.
  - inversion Hpre as [|? ? Hxv Hpre']; subst.
    destruct (Qle_bool x best);
      rewrite (IH _ _ k _ Hk) by assumption; lia.
Qed.

Lemma argmax_first_largest (l : list Q) (k : nat) (v : Q) :
  l !! k = Some v ->
  Forall (fun w => w <= v) l ->
  Forall (fun w => w < v) (take k l) ->
  argmax l = Ok k.
Proof.
  intros Hk Hall Hpre. destruct l as [|x rest]; [discriminate|].
  inversion Hall as [|? ? Hx Hrest]; subst. simpl.
  destruct k as [|k]; simpl in *.
  - injection Hk as ->. rewrite argmax_from_keep by assumption. reflexivity.
  - inversion Hpre as [|? ? Hxv Hpre']; subst.
    rewrite (argmax_from_take rest 0 1 k x v) by assumption. reflexivity.
Qed.

Lemma argmax_from_bound (l : list Q) (best_i i : nat) (best : Q) :
  (best_i < i)%nat ->
  (argmax_from best_i best i l < i + length l)%nat.
Proof.
  revert best_i i best.
  induction l as [|x rest IH]; intros best_i i best Hlt; simpl; [lia|].
  destruct (Qle_bool x best).
  - specialize (IH best_i (S i) best). lia.
  - specialize (IH i (S i) x). lia.
Qed.

Lemma argmax_in_range (l : list Q) :
  l <> [] -> exists k, argmax l = Ok k /\ (k < length l)%nat.
Proof.
  destruct l as [|x rest]; [congruence|]. intros _.
  eexists; split; [reflexivity|].
  pose proof (argmax_from_bound rest 0 1 x). simpl. lia.
Qed.

Lemma argmax_ok_nonempty (l : list Q) (k : nat) :
  argmax l = Ok k -> (k < length l)%nat.
Proof.
  destruct l as [|x rest]; [discriminate|]. intros H.
  destruct (argmax_in_range (x :: rest)) as (k' & Hk' & Hlt); [discriminate|].
  congruence.
Qed.

End Argmax.

(** ** The keyword loop *)

Lemma stop_word_test (token : string) (words : list string) :
  existsb (String.eqb token) words = false <-> token ∉ words.
Proof.
  induction words as [|word words IH]; simpl.
  - split; [intros _; apply not_elem_of_nil|reflexivity].
  - rewrite orb_false_iff, IH, not_elem_of_cons, String.eqb_neq. tauto.
Qed.

(** The set the code builds is the token set of the specification. *)
Lemma significant_words_spec (lower : string -> string)
    (split : string -> list string) (text : string) :
  significant_words lower split text = spec_tokens lower split text.
Proof.
  unfold significant_words, spec_tokens. f_equal.
  apply list_filter_iff. intros token. rewrite stop_word_test.
  unfold stopwords. rewrite elem_of_list_to_set. tauto.
Qed.

Section KeywordLoop.

Variable lower : string -> string.
Variable split : string -> list string.

Lemma keyword_search_first (query : string) (pre post : list string)
    (section : string) :
  Forall (fun s => spec_overlap lower split query s < 2) pre ->
  2 <= spec_overlap lower split query section ->
  keyword_search lower split (significant_words lower split query)
    (pre ++ section :: post)
  = Some section.
Proof.
  unfold spec_overlap. rewrite <- !significant_words_spec.
  setoid_rewrite <- significant_words_spec. intros Hpre Hsec.
  induction Hpre as [|s pre Hs Hpre IH]; simpl.
  - destruct (decide _); [reflexivity|lia].
  - destruct (decide _); [lia|exact IH].
Qed.

Lemma keyword_search_none (query : string) (sections : list string) :
  Forall (fun s => spec_overlap lower split query s < 2) sections ->
  keyword_search lower split (significant_words lower split query) sections
  = None.
Proof.
  unfold spec_overlap. setoid_rewrite <- significant_words_spec.
  induction 1 as [|s rest Hs Hrest IH]; simpl; [reflexivity|].
  destruct (decide _); [lia|exact IH].
Qed.

Lemma keyword_search_elem (words : gset string) (sections : list string)
    (section : string) :
  keyword_search lower split words sections = Some section ->
  section ∈ sections.
Proof.
  induction sections as [|s rest IH]; simpl; [discriminate|].
  destruct (decide _).
  - intros [= ->]. left.
  - intros H. right. auto.
Qed.

End KeywordLoop.

(** ** The relevance resolver *)

Section ResolverProperties.

Variable lower : string -> string.
Variable split : string -> list string.
Variable embedding : Type.
Variable encode : string -> embedding.
Variable cos_sim : embedding -> embedding -> Q.

Abbreviation resolver :=
  (find_relevant_section lower split embedding encode cos_sim).
Abbreviation scores := (similarities embedding encode cos_sim).

Lemma scores_length (query : string) (embs : list embedding) :
  length (scores query embs) = length embs.
Proof. unfold similarities. apply length_map. Qed.

(** The semantic tier: a best score at or above the threshold selects
    its section, whatever the keywords say. *)
Lemma resolver_semantic (query : string) (secs : list string)
    (embs : list embedding) (k : nat) (v : Q) (section : string) :
  argmax (scores query embs) = Ok k ->
  scores query embs !! k = Some v ->
  secs !! k = Some section ->
  (SIMILARITY_THRESHOLD <= v)%Q ->
  resolver query secs embs = Ok section.
Proof.
  intros Harg Hv Hsec Hthr. unfold find_relevant_section.
  rewrite Harg, Hsec. cbv zeta.
  rewrite nth_lookup, Hv. simpl.
  apply Qle_bool_iff in Hthr. rewrite Hthr. reflexivity.
Qed.

(** Below the threshold the resolver is the keyword loop, with the
    sentinel when the loop finds nothing. *)
Lemma resolver_fallback (query : string) (secs : list string)
    (embs : list embedding) :
  secs <> [] ->
  length embs = length secs ->
  Forall (fun w => w < SIMILARITY_THRESHOLD)%Q (scores query embs) ->
  resolver query secs embs =
  Ok (default sentinel
        (keyword_search lower split (significant_words lower split query)
           secs)).
Proof.
  intros Hne Hlen Hlow. unfold find_relevant_section.
  destruct (argmax_in_range (scores query embs)) as (k & Hk & Hlt).
  { intros E. apply (f_equal length) in E.
    rewrite scores_length, Hlen in E. destruct secs; simpl in E; congruence. }
  rewrite Hk. rewrite scores_length, Hlen in Hlt.
  destruct (lookup_lt_is_Some_2 secs k Hlt) as [best Hbest].
  rewrite Hbest. cbv zeta.
  assert (Hk' : (k < length (scores query embs))%nat)
    by (rewrite scores_length, Hlen; exact Hlt).
  destruct (lookup_lt_is_Some_2 _ k Hk') as [v Hv].
  rewrite nth_lookup, Hv. simpl.
  assert (Hv' : (v < SIMILARITY_THRESHOLD)%Q).
  { rewrite Forall_forall in Hlow. apply Hlow.
    eapply list_elem_of_lookup_2; eauto. }
  destruct (Qle_bool SIMILARITY_THRESHOLD v) eqn:E.
  - apply Qle_bool_iff in E. exfalso.
    apply (Qlt_irrefl v). eapply Qlt_le_trans; eauto.
  - destruct (keyword_search _ _ _ secs); reflexivity.
Qed.

(** With one embedding per section and at least one section, the
    resolver returns. *)
Lemma resolver_total (query : string) (secs : list string)
    (embs : list embedding) :
  secs <> [] ->
  length embs = length secs ->
  exists r, resolver query secs embs = Ok r.
Proof.
  intros Hne Hlen. unfold find_relevant_section.
  destruct (argmax_in_range (scores query embs)) as (k & Hk & Hlt).
  { intros E. apply (f_equal length) in E.
    rewrite scores_length, Hlen in E. destruct secs; simpl in E; congruence. }
  rewrite Hk. rewrite scores_length, Hlen in Hlt.
  destruct (lookup_lt_is_Some_2 secs k Hlt) as [best Hbest].
  rewrite Hbest. cbv zeta.
  destruct (Qle_bool _ _); [eauto|].
  destruct (keyword_search _ _ _ _); eauto.
Qed.

(** What the resolver returns is a section or the sentinel. *)
Lemma resolver_range (query : string) (secs : list string)
    (embs : list embedding) (r : string) :
  resolver query secs embs = Ok r -> r ∈ secs \/ r = sentinel.
Proof.
  unfold find_relevant_section.
  destruct (argmax _) as [k|e]; [|discriminate].
  destruct (secs !! k) as [best|] eqn:Hbest; [|discriminate]. cbv zeta.
  destruct (Qle_bool _ _).
  - intros [= <-]. left. eapply list_elem_of_lookup_2; eauto.
  - destruct (keyword_search _ _ _ _) as [s|] eqn:Hs; intros [= <-].
    + left. eapply keyword_search_elem; eauto.
    + right. reflexivity.
Qed.

End ResolverProperties.

Ltac q_order := vm_compute; first [reflexivity | discriminate | intro; discriminate].
Ltac q_all := repeat (first [apply Forall_nil_2 | apply Forall_cons_2; [q_order|]]).
Ltac few_shared :=
  repeat (first [apply Forall_nil_2 | apply Forall_cons_2; [vm_compute; lia|]]).

(** C1. For every query and every non-empty sections sequence with one
    embedding per section: when the largest cosine similarity [v] is at
    position [k], is at least 0.4, and every earlier score is strictly
    smaller (so [k] is the lowest index attaining the maximum), the
    resolver returns the section at index [k]. *)
Theorem resolver_returns_first_argmax
    (lower : string -> string) (split : string -> list string)
    (embedding : Type) (encode : string -> embedding)
    (cos_sim : embedding -> embedding -> Q)
    (query : string) (secs : list string) (embs : list embedding)
    (k : nat) (v : Q) :
  length embs = length secs ->
  similarities embedding encode cos_sim query embs !! k = Some v ->
  Forall (fun w => w <= v)%Q (similarities embedding encode cos_sim query embs) ->
  Forall (fun w => w < v)%Q
         (take k (similarities embedding encode cos_sim query embs)) ->
  (0.4 <= v)%Q ->
  exists section,
    secs !! k = Some section /\
    find_relevant_section lower split embedding encode cos_sim query secs embs
    = Ok section.
Proof.
  intros Hlen Hv Hmax Hfirst Hthr.
  assert (Hk : k < length secs).
  { rewrite <- Hlen, <- (scores_length embedding encode cos_sim query).
    eapply lookup_lt_Some; eauto. }
  destruct (lookup_lt_is_Some_2 secs k Hk) as [section Hsec].
  exists section. split; [exact Hsec|].
  eapply resolver_semantic; eauto.
  eapply argmax_first_largest; eauto.
Qed.

(** Sections 1 and 2 both score 2/2 against the query; section 1 wins. *)
Lemma resolver_returns_first_argmax_witness :
  exists section,
    ["shipping info"; "refund policy here"; "policy refund there"] !! 1
      = Some section /\
    find_relevant_section Demo.lower Demo.split Demo.embedding Demo.encode
      Demo.cos_sim "refund policy"
      ["shipping info"; "refund policy here"; "policy refund there"]
      (map Demo.encode
           ["shipping info"; "refund policy here"; "policy refund there"])
    = Ok section.
Proof.
  apply (resolver_returns_first_argmax Demo.lower Demo.split Demo.embedding
           Demo.encode Demo.cos_sim "refund policy" _ _ 1 (2 # 2)).
  - reflexivity.
  - vm_compute. reflexivity.
  - q_all.
  - q_all.
  - q_order.
Defined.

(** C2. For every query whose similarities are all below 0.4: when the
    sections are [pre ++ section :: post], no section of [pre] shares
    two tokens with the query and [section] does, the resolver returns
    [section], whatever the overlap of the sections of [post].  The
    tokens of a text are those of its lower-case form, split at white
    space, that are none of the seventeen stop words; sharing is
    counted on the sets of tokens. *)
Theorem resolver_keyword_first_match
    (lower : string -> string) (split : string -> list string)
    (embedding : Type) (encode : string -> embedding)
    (cos_sim : embedding -> embedding -> Q)
    (query : string) (pre post : list string) (section : string)
    (embs : list embedding) :
  length embs = length (pre ++ section :: post) ->
  Forall (fun w => w < 0.4)%Q (similarities embedding encode cos_sim query embs) ->
  Forall (fun s => spec_overlap lower split query s < 2) pre ->
  2 <= spec_overlap lower split query section ->
  find_relevant_section lower split embedding encode cos_sim query
    (pre ++ section :: post) embs = Ok section.
Proof.
  intros Hlen Hlow Hpre Hsec.
  rewrite resolver_fallback; try assumption.
  - rewrite keyword_search_first by assumption. reflexivity.
  - destruct pre; discriminate.
Qed.

(** The first section shares only stop words with the query, the
    second shares two tokens once both are in lower case and is
    returned, although the third shares three. *)
Lemma resolver_keyword_first_match_witness :
  spec_overlap Demo.lower Demo.split "What IS the REFUND Policy on Shoes"
               "what is the weather on monday" = 0 /\
  spec_overlap Demo.lower Demo.split "What IS the REFUND Policy on Shoes"
               "shoes refund policy" = 3 /\
  find_relevant_section Demo.lower Demo.split unit (fun _ => tt)
    (fun _ _ => 0%Q) "What IS the REFUND Policy on Shoes"
    (["what is the weather on monday"] ++ "Our Refund POLICY"
       :: ["shoes refund policy"])
    [tt; tt; tt]
  = Ok "Our Refund POLICY".
Proof.
  split; [vm_compute; reflexivity|]. split; [vm_compute; reflexivity|].
  apply (resolver_keyword_first_match Demo.lower Demo.split).
  - reflexivity.
  - q_all.
  - few_shared.
  - vm_compute. lia.
Defined.

(** C8, as stated, fails: with no section there is no similarity to
    take the largest of, and the resolver raises instead of returning
    the sentinel. *)
Lemma resolver_empty_sections_counterexample :
  find_relevant_section Demo.lower Demo.split Demo.embedding Demo.encode
    Demo.cos_sim "How long does shipping take?" [] []
  <> Ok sentinel.
Proof. vm_compute. discriminate. Qed.

(** C8, amended. For the empty sections sequence the resolver returns
    nothing: [argmax] over no similarities raises (and with embeddings
    left over, the lookup of the section does).  The segmenter never
    produces that sequence: splitting a text at blank lines gives at
    least one section. *)
Theorem resolver_empty_sections_raise
    (lower : string -> string) (split : string -> list string)
    (embedding : Type) (encode : string -> embedding)
    (cos_sim : embedding -> embedding -> Q) :
  (forall query,
     find_relevant_section lower split embedding encode cos_sim query [] []
     = Raise RuntimeError) /\
  (forall query embs, exists e,
     find_relevant_section lower split embedding encode cos_sim query [] embs
     = Raise e) /\
  (forall text, PyStr.split_blank_lines text <> []).
Proof.
  split; [reflexivity|]. split; [|apply split_blank_lines_nonempty].
  intros query embs. unfold find_relevant_section.
  destruct (argmax _); eauto.
Qed.

(** C9, as stated, fails: on an input that neither tier selects from,
    the string returned is not the one the claim quotes. *)
Lemma resolver_sentinel_counterexample :
  Forall (fun w => w < SIMILARITY_THRESHOLD)%Q
    (similarities Demo.embedding Demo.encode Demo.cos_sim
       "Do you sell gift cards?"
       (map Demo.encode ["Returns are accepted within 30 days.";
                         "Shipping takes 5-7 business days."])) /\
  Forall (fun s => spec_overlap Demo.lower Demo.split
                     "Do you sell gift cards?" s < 2)
    ["Returns are accepted within 30 days.";
     "Shipping takes 5-7 business days."] /\
  find_relevant_section Demo.lower Demo.split Demo.embedding Demo.encode
    Demo.cos_sim "Do you sell gift cards?"
    ["Returns are accepted within 30 days.";
     "Shipping takes 5-7 business days."]
    (map Demo.encode ["Returns are accepted within 30 days.";
                      "Shipping takes 5-7 business days."])
  <> Ok "insufficient information to answer.".
Proof.
  split; [q_all|]. split; [few_shared|]. vm_compute. discriminate.
Qed.

(** C9, amended. For a non-empty sections sequence with one embedding
    per section: when every similarity is below 0.4 and no section
    shares two tokens with the query (tokens as in C2: lower case,
    split at white space, stop words dropped), the resolver returns
    exactly the fixed string written out below. *)
Theorem resolver_sentinel
    (lower : string -> string) (split : string -> list string)
    (embedding : Type) (encode : string -> embedding)
    (cos_sim : embedding -> embedding -> Q)
    (query : string) (secs : list string) (embs : list embedding) :
  secs <> [] ->
  length embs = length secs ->
  Forall (fun w => w < 0.4)%Q (similarities embedding encode cos_sim query embs) ->
  Forall (fun s => spec_overlap lower split query s < 2) secs ->
  find_relevant_section lower split embedding encode cos_sim query secs embs
  = Ok "I don’t have enough information to answer that.".
Proof.
  intros Hne Hlen Hlow Hkw.
  rewrite resolver_fallback by assumption.
  rewrite keyword_search_none by assumption. reflexivity.
Qed.

(** The query and the second section share [the] and [is], which are
    stop words, and [Shipping], which is one token. *)
Lemma resolver_sentinel_witness :
  find_relevant_section Demo.lower Demo.split Demo.embedding Demo.encode
    Demo.cos_sim "What IS the price of Shipping abroad?"
    ["Returns are accepted within 30 days.";
     "The shipping is free, what a deal."]
    (map Demo.encode ["Returns are accepted within 30 days.";
                      "The shipping is free, what a deal."])
  = Ok "I don’t have enough information to answer that.".
Proof.
  apply resolver_sentinel.
  - discriminate.
  - reflexivity.
  - q_all.
  - few_shared.
Defined.

(** C10. For every query, sections sequence and embedding index, the
    resolver either returns a string that is one of the sections or the
    sentinel, or raises; and it raises only when there is no section or
    the index is not parallel to the sections. *)
Theorem resolver_result_in_range
    (lower : string -> string) (split : string -> list string)
    (embedding : Type) (encode : string -> embedding)
    (cos_sim : embedding -> embedding -> Q)
    (query : string) (secs : list string) (embs : list embedding) :
  match find_relevant_section lower split embedding encode cos_sim
          query secs embs with
  | Ok r => r ∈ secs \/ r = sentinel
  | Raise _ => secs = [] \/ length embs <> length secs
  end.
Proof.
  destruct (find_relevant_section _ _ _ _ _ _ _ _) as [r|e] eqn:E.
  - eapply resolver_range; eauto.
  - destruct secs as [|s rest]; [left; reflexivity|]. right. intros Hlen.
    destruct (resolver_total lower split embedding encode cos_sim query
                (s :: rest) embs)
      as [r Hr]; [discriminate|assumption|congruence].
Qed.
(** ** The session handler *)

Ltac run_handler :=
  unfold handle_input, process_file, load_file, accept_adjusted, resolve,
    concat_query, call_qa, append_chat, set_mode, set_last_answer,
    set_feedback_count, set_current_query, on_session, lift_result,
    bind, get, modify, ret, raise in *;
  simpl in *.

Ltac step_done :=
  lazymatch goal with
  | |- exists w', (_, ?x) = _ /\ _ =>
      exists x; split; [reflexivity|]; simpl; auto 10
  end.

Section SessionProperties.

Variable lower : string -> string.
Variable split : string -> list string.
Variable embedding : Type.
Variable encode : string -> embedding.
Variable cos_sim : embedding -> embedding -> Q.
Variable qa_model : string -> string -> option nat -> result string.
Variable read_text : string -> result string.
Variable extract_text_from_pdf : string -> result string.

Abbreviation State := (State embedding).
Abbreviation World := (World embedding).
Abbreviation handle :=
  (handle_input lower split embedding encode cos_sim qa_model).
Abbreviation upload :=
  (process_file lower embedding encode read_text extract_text_from_pdf).
Abbreviation resolver :=
  (find_relevant_section lower split embedding encode cos_sim).
Abbreviation ok := (session_ok embedding encode).

Lemma handle_preserves_ok (w : World) (user_input : string) :
  ok (session w) -> ok (session (snd (handle user_input w))).
Proof.
  destruct w as [s calls]. destruct s as [doc secs embs q n m chat a].
  unfold session_ok. simpl. intros (Hn & Hsecs & Hq).
  run_handler.
  destruct m; simpl.
  - auto.
  - destruct Hsecs as (l & -> & Hl & ->); [discriminate|].
    destruct (find_relevant_section _ _ _ _ _ _ _ _) as [context|e]; simpl.
    + destruct (String.eqb context sentinel); simpl.
      * repeat split; [lia|eauto|eauto].
      * destruct (qa_model _ _ _); simpl;
          (repeat split; [lia|eauto|first [discriminate|eauto]]).
    + repeat split; [lia|eauto|discriminate].
  - destruct Hsecs as (l & -> & Hl & ->); [discriminate|].
    destruct Hq as (q0 & a0 & -> & ->); [reflexivity|].
    destruct (String.eqb (lower user_input) "good") eqn:Eg; simpl.
    { repeat split; [lia|eauto|discriminate]. }
    destruct n as [|[|n']]; simpl;
      [| |repeat split; [lia|eauto|discriminate]].
    all: destruct (find_relevant_section _ _ _ _ _ _ _ _) as [context|e]; simpl;
      [|repeat split; [lia|eauto|eauto]].
    all: destruct (String.eqb _ "too vague"); simpl;
      [repeat split; [lia|eauto|eauto]|].
    all: destruct (String.eqb _ "not helpful"); simpl;
      [|repeat split; [lia|eauto|eauto]].
    all: destruct (qa_model _ _ _); simpl;
      (repeat split; [lia|eauto|eauto]).
Qed.

Lemma upload_preserves_ok (w : World) (file : option string) :
  ok (session w) -> ok (session (snd (upload file w))).
Proof.
  destruct w as [s calls]. intros Hok.
  unfold process_file. destruct file as [path|]; [|exact Hok].
  destruct (PyStr.endswith _ ".pdf").
  - run_handler. destruct (extract_text_from_pdf path); [|exact Hok].
    unfold session_ok. simpl. repeat split; [lia| |discriminate].
    intros _. eexists; repeat split. apply split_blank_lines_nonempty.
  - destruct (PyStr.endswith _ ".txt"); [|exact Hok].
    run_handler. destruct (read_text path); [|exact Hok].
    unfold session_ok. simpl. repeat split; [lia| |discriminate].
    intros _. eexists; repeat split. apply split_blank_lines_nonempty.
Qed.

Lemma reachable_ok (s : State) :
  reachable lower split embedding encode cos_sim qa_model read_text
    extract_text_from_pdf s -> ok s.
Proof.
  induction 1 as [|w user_input _ IH|w file _ IH].
  - unfold session_ok. simpl. repeat split; [lia|congruence|discriminate].
  - apply handle_preserves_ok, IH.
  - apply upload_preserves_ok, IH.
Qed.

(** *** One step of the handler, case by case *)


(** At the cap, any feedback other than [good] ends the round; the
    counter is left as it is. *)
Lemma handle_capped (w : World) (user_input : string) :
  mode (session w) = waiting_for_feedback ->
  lower user_input <> "good" ->
  2 <= feedback_count (session w) ->
  exists w',
    handle user_input w = (Ok (chat_history (session w')), w') /\
    mode (session w') = waiting_for_query /\
    feedback_count (session w') = feedback_count (session w) /\
    current_query (session w') = current_query (session w) /\
    last_answer (session w') = last_answer (session w) /\
    qa_calls w' = qa_calls w /\
    chat_history (session w') =
      ((chat_history (session w) ++ [("User", lower user_input)])
       ++ [("Bot",
            "Maximum feedback iterations reached. You can ask another question.")])%list.
Proof.
  destruct w as [s calls]. destruct s as [doc secs embs q n m chat a].
  simpl. intros -> Hgood Hcap. run_handler.
  apply String.eqb_neq in Hgood. rewrite Hgood.
  destruct n as [|[|n]]; [lia|lia|]. simpl.
  step_done.
Qed.

Lemma handle_too_vague (w : World) (user_input query : string)
    (secs : list string) (embs : list embedding) (context : string) :
  mode (session w) = waiting_for_feedback ->
  lower user_input = "too vague" ->
  feedback_count (session w) < 2 ->
  current_query (session w) = Some query ->
  sections (session w) = Some secs ->
  section_embeddings (session w) = Some embs ->
  resolver query secs embs = Ok context ->
  exists w',
    handle user_input w = (Ok (chat_history (session w')), w') /\
    last_answer (session w') =
      Some (more_details (fmt (last_answer (session w))) context) /\
    feedback_count (session w') = feedback_count (session w) + 1 /\
    mode (session w') = waiting_for_feedback /\
    qa_calls w' = qa_calls w.
Proof.
  destruct w as [s calls]. destruct s as [doc secs0 embs0 q n m chat a].
  simpl. intros -> Hfb Hn -> -> -> Hctx. run_handler.
  rewrite Hfb.
  destruct n as [|[|n]]; [| |lia]; simpl; rewrite Hctx; simpl; step_done.
Qed.


Lemma handle_invalid (w : World) (user_input query : string)
    (secs : list string) (embs : list embedding) (context : string) :
  mode (session w) = waiting_for_feedback ->
  lower user_input <> "good" ->
  lower user_input <> "too vague" ->
  lower user_input <> "not helpful" ->
  feedback_count (session w) < 2 ->
  current_query (session w) = Some query ->
  sections (session w) = Some secs ->
  section_embeddings (session w) = Some embs ->
  resolver query secs embs = Ok context ->
  exists w',
    handle user_input w = (Ok (chat_history (session w')), w') /\
    mode (session w') = mode (session w) /\
    feedback_count (session w') = feedback_count (session w) /\
    current_query (session w') = current_query (session w) /\
    last_answer (session w') = last_answer (session w) /\
    qa_calls w' = qa_calls w /\
    chat_history (session w') =
      ((chat_history (session w) ++ [("User", lower user_input)])
       ++ [("Bot",
            "Please provide valid feedback: good, too vague, not helpful.")])%list.
Proof.
  destruct w as [s calls]. destruct s as [doc secs0 embs0 q n m chat a].
  simpl. intros -> Hg Hv Hh Hn -> -> -> Hctx. run_handler.
  apply String.eqb_neq in Hg, Hv, Hh. rewrite Hg.
  destruct n as [|[|n]]; [| |lia]; simpl; rewrite Hctx; simpl;
    rewrite Hv, Hh; step_done.
Qed.


(** In a reachable session that awaits feedback the resolver has
    what it needs and returns. *)
Lemma reachable_resolves (s : State) :
  reachable lower split embedding encode cos_sim qa_model read_text
    extract_text_from_pdf s ->
  mode s = waiting_for_feedback ->
  exists prior query secs embs context,
    last_answer s = Some prior /\
    current_query s = Some query /\
    sections s = Some secs /\
    section_embeddings s = Some embs /\
    resolver query secs embs = Ok context.
Proof.
  intros Hr Hm. apply reachable_ok in Hr.
  destruct Hr as (_ & Hsecs & Hq).
  destruct Hsecs as (secs & Hs & Hne & He); [congruence|].
  destruct (Hq Hm) as (query & prior & Hquery & Hprior).
  destruct (resolver_total lower split embedding encode cos_sim query secs
              (map encode secs) Hne) as [context Hctx];
    [apply length_map|].
  exists prior, query, secs, (map encode secs), context. auto.
Qed.

End SessionProperties.

(** ** Strings of the refined answer *)

Lemma prefix_app (s t : string) : String.prefix s (s ++ t) = true.
Proof.
  induction s as [|c s IH]; simpl; [destruct t; reflexivity|].
  destruct (ascii_dec c c); [exact IH|congruence].
Qed.

Lemma slice_to_length (n : nat) (s : string) :
  PyStr.char_length (PyStr.slice_to n s) = Nat.min n (PyStr.char_length s).
Proof.
  revert n. induction s as [|c s IH]; intros n; simpl.
  - lia.
  - destruct (PyStr.is_continuation c) eqn:E; simpl.
    + rewrite E. apply IH.
    + destruct n as [|n]; simpl; [reflexivity|]. rewrite E, IH. reflexivity.
Qed.

Lemma slice_to_prefix (n : nat) (s : string) :
  String.prefix (PyStr.slice_to n s) s = true.
Proof.
  revert n. induction s as [|c s IH]; intros n; simpl; [reflexivity|].
  destruct (PyStr.is_continuation c).
  - simpl. destruct (ascii_dec c c); [apply IH|congruence].
  - destruct n as [|n]; simpl; [reflexivity|].
    destruct (ascii_dec c c); [apply IH|congruence].
Qed.

Lemma slice_to_all (n : nat) (s : string) :
  PyStr.char_length s <= n -> PyStr.slice_to n s = s.
Proof.
  revert n. induction s as [|c s IH]; intros n; simpl; [reflexivity|].
  destruct (PyStr.is_continuation c).
  - intros H. rewrite IH by assumption. reflexivity.
  - destruct n as [|n]; [lia|]. intros H. rewrite IH by lia. reflexivity.
Qed.

(** ** The sessions of the example *)

Lemma demo_uploaded_reachable : demo_reachable (session Demo.uploaded).
Proof.
  unfold Demo.uploaded, Demo.after, Demo.process_file.
  apply reachable_upload. apply reachable_initial.
Qed.

Lemma demo_asked_reachable : demo_reachable (session Demo.asked).
Proof.
  unfold Demo.asked, Demo.after, Demo.handle_input.
  apply reachable_input, demo_uploaded_reachable.
Qed.

Lemma demo_refined_twice_reachable :
  demo_reachable (session Demo.refined_twice).
Proof.
  unfold Demo.refined_twice, Demo.refined_once, Demo.after, Demo.handle_input.
  do 2 apply reachable_input. apply demo_asked_reachable.
Qed.

Example refined_twice_ex :
  feedback_count (session Demo.refined_twice) = 2 /\
  mode (session Demo.refined_twice) = waiting_for_feedback /\
  length (qa_calls Demo.refined_twice) = 3.
Proof. vm_compute. auto. Qed.

(** ** The feedback counter *)

(** C3, as stated, fails: after two refinements a third feedback other
    than [good] sends the session back to [waiting_for_query], but the
    counter is not reset there. *)
Lemma feedback_cap_counterexample :
  demo_reachable (session Demo.refined_twice) /\
  mode (session Demo.refined_twice) = waiting_for_feedback /\
  2 <= feedback_count (session Demo.refined_twice) /\
  mode (session (Demo.after (Demo.handle_input "too vague")
                            Demo.refined_twice)) = waiting_for_query /\
  feedback_count (session (Demo.after (Demo.handle_input "too vague")
                                      Demo.refined_twice)) <> 0.
Proof.
  split; [apply demo_refined_twice_reachable|].
  vm_compute. repeat split; [lia|discriminate].
Qed.

(** C3, amended. In every reachable session the feedback counter is at
    most 2.  When feedback other than [good] arrives with the counter
    at 2 or more, the handler returns, the mode becomes
    [waiting_for_query] and the counter keeps its value; the counter
    is set to 0 by the handling of the next query. *)
Theorem feedback_counter_bounded
    (lower : string -> string) (split : string -> list string)
    (embedding : Type) (encode : string -> embedding)
    (cos_sim : embedding -> embedding -> Q)
    (qa_model : string -> string -> option nat -> result string)
    (read_text extract_text_from_pdf : string -> result string)
    (w : World embedding) (user_input : string) :
  reachable lower split embedding encode cos_sim qa_model read_text
    extract_text_from_pdf (session w) ->
  feedback_count (session w) <= 2 /\
  (mode (session w) = waiting_for_feedback ->
   2 <= feedback_count (session w) ->
   lower user_input <> "good" ->
   exists w',
     handle_input lower split embedding encode cos_sim qa_model user_input w
       = (Ok (chat_history (session w')), w') /\
     mode (session w') = waiting_for_query /\
     feedback_count (session w') = feedback_count (session w)) /\
  (mode (session w) = waiting_for_query ->
   feedback_count
     (session (snd (handle_input lower split embedding encode cos_sim qa_model
                      user_input w))) = 0).
Proof.
  intros Hr. split; [apply reachable_ok in Hr; apply Hr|]. split.
  - intros Hm Hcap Hgood.
    destruct (handle_capped lower split embedding encode cos_sim qa_model w user_input
                Hm Hgood Hcap) as (w' & Hrun & Hmode & Hcount & _).
    eauto.
  - destruct w as [s calls]. destruct s as [doc secs embs q n m chat a].
    simpl. intros ->. run_handler.
    destruct secs, embs; simpl; try reflexivity.
    destruct (find_relevant_section _ _ _ _ _ _ _ _) as [context|e]; simpl;
      [|reflexivity].
    destruct (String.eqb context sentinel); simpl; [reflexivity|].
    destruct (qa_model _ _ _); reflexivity.
Qed.

Lemma feedback_counter_bounded_witness :
  feedback_count (session Demo.refined_twice) <= 2 /\
  (exists w',
     Demo.handle_input "Too Vague" Demo.refined_twice
       = (Ok (chat_history (session w')), w') /\
     mode (session w') = waiting_for_query /\
     feedback_count (session w') = feedback_count (session Demo.refined_twice)) /\
  feedback_count
    (session (snd (Demo.handle_input "Do you sell gift cards?"
                     (Demo.after (Demo.handle_input "Too Vague")
                                 Demo.refined_twice)))) = 0.
Proof.
  destruct (feedback_counter_bounded Demo.lower Demo.split Demo.embedding
              Demo.encode Demo.cos_sim
              Demo.qa_model Demo.read_text Demo.extract_text_from_pdf
              Demo.refined_twice "Too Vague" demo_refined_twice_reachable)
    as (Hle & Hcap & _).
  split; [exact Hle|]. split.
  - apply Hcap.
    + vm_compute. reflexivity.
    + vm_compute. lia.
    + vm_compute. discriminate.
  - apply (feedback_counter_bounded Demo.lower Demo.split Demo.embedding
              Demo.encode Demo.cos_sim
             Demo.qa_model Demo.read_text Demo.extract_text_from_pdf).
    + unfold Demo.after, Demo.handle_input.
      apply reachable_input, demo_refined_twice_reachable.
    + vm_compute. reflexivity.
Defined.

(** ** The feedback refiner *)

(** C4. On feedback [too vague] with fewer than two refinements made,
    in a reachable session awaiting feedback, the handler returns and
    the new answer is the prior answer, the separator, the first 500
    characters of the context resolved for the current query, and the
    closing marker; no call of the pipeline is made.  The prior answer
    is a prefix of the new one; the excerpt is a prefix of the context,
    of 500 characters or of all of them when the context has fewer. *)
Theorem too_vague_refinement
    (lower : string -> string) (split : string -> list string)
    (embedding : Type) (encode : string -> embedding)
    (cos_sim : embedding -> embedding -> Q)
    (qa_model : string -> string -> option nat -> result string)
    (read_text extract_text_from_pdf : string -> result string)
    (w : World embedding) (user_input : string) :
  reachable lower split embedding encode cos_sim qa_model read_text
    extract_text_from_pdf (session w) ->
  mode (session w) = waiting_for_feedback ->
  lower user_input = "too vague" ->
  feedback_count (session w) < 2 ->
  exists prior query secs embs context w',
    last_answer (session w) = Some prior /\
    current_query (session w) = Some query /\
    sections (session w) = Some secs /\
    section_embeddings (session w) = Some embs /\
    find_relevant_section lower split embedding encode cos_sim query secs embs
      = Ok context /\
    handle_input lower split embedding encode cos_sim qa_model user_input w
      = (Ok (chat_history (session w')), w') /\
    last_answer (session w') =
      Some (prior ++ "

(More details:
" ++ PyStr.slice_to 500 context ++ "...)") /\
    qa_calls w' = qa_calls w /\
    String.prefix prior (prior ++ "

(More details:
" ++ PyStr.slice_to 500 context ++ "...)") = true /\
    String.prefix (PyStr.slice_to 500 context) context = true /\
    PyStr.char_length (PyStr.slice_to 500 context)
      = Nat.min 500 (PyStr.char_length context) /\
    PyStr.char_length (PyStr.slice_to 500 context) <= 500.
Proof.
  intros Hr Hm Hfb Hn.
  destruct (reachable_resolves _ _ _ _ _ _ _ _ _ Hr Hm)
    as (prior & query & secs & embs & context & Ha & Hq & Hs & He & Hctx).
  destruct (handle_too_vague lower split embedding encode cos_sim qa_model w
              user_input query secs embs context Hm Hfb Hn Hq Hs He Hctx)
    as (w' & Hrun & Hlast & _ & _ & Hcalls).
  exists prior, query, secs, embs, context, w'.
  rewrite Ha in Hlast.
  repeat split; try assumption.
  - apply prefix_app.
  - apply slice_to_prefix.
  - apply slice_to_length.
  - rewrite slice_to_length. lia.
Qed.

Lemma too_vague_refinement_witness :
  exists prior query secs embs context w',
    last_answer (session Demo.asked) = Some prior /\
    current_query (session Demo.asked) = Some query /\
    sections (session Demo.asked) = Some secs /\
    section_embeddings (session Demo.asked) = Some embs /\
    find_relevant_section Demo.lower Demo.split Demo.embedding Demo.encode
      Demo.cos_sim query secs embs = Ok context /\
    Demo.handle_input "Too vague" Demo.asked
      = (Ok (chat_history (session w')), w') /\
    last_answer (session w') =
      Some (prior ++ "

(More details:
" ++ PyStr.slice_to 500 context ++ "...)") /\
    qa_calls w' = qa_calls Demo.asked /\
    String.prefix prior (prior ++ "

(More details:
" ++ PyStr.slice_to 500 context ++ "...)") = true /\
    String.prefix (PyStr.slice_to 500 context) context = true /\
    PyStr.char_length (PyStr.slice_to 500 context)
      = Nat.min 500 (PyStr.char_length context) /\
    PyStr.char_length (PyStr.slice_to 500 context) <= 500.
Proof.
  apply (too_vague_refinement Demo.lower Demo.split Demo.embedding Demo.encode
           Demo.cos_sim Demo.qa_model Demo.read_text
           Demo.extract_text_from_pdf).
  - apply demo_asked_reachable.
  - vm_compute. reflexivity.
  - vm_compute. reflexivity.
  - vm_compute. lia.
Defined.

Example too_vague_ex :
  last_answer (session (Demo.after (Demo.handle_input "Too vague") Demo.asked))
  = Some "Shipping

(More details:
Shipping takes 5-7 business days....)".
Proof. vm_compute. reflexivity. Qed.




(** ** Feedback outside the vocabulary *)

(** C6, as stated, fails at the cap: with two refinements made, an
    input that is no feedback label still ends the round. *)
Lemma invalid_feedback_counterexample :
  demo_reachable (session Demo.refined_twice) /\
  mode (session Demo.refined_twice) = waiting_for_feedback /\
  2 <= feedback_count (session Demo.refined_twice) /\
  Demo.lower "thanks" <> "good" /\
  Demo.lower "thanks" <> "too vague" /\
  Demo.lower "thanks" <> "not helpful" /\
  mode (session (Demo.after (Demo.handle_input "thanks") Demo.refined_twice))
  <> mode (session Demo.refined_twice).
Proof.
  split; [apply demo_refined_twice_reachable|].
  vm_compute. repeat split; solve [lia | discriminate].
Qed.

(** C6, amended. In a reachable session awaiting feedback, an input
    whose lower-case form is none of [good], [too vague], [not helpful]
    makes the handler return with [feedback_count], [current_query] and
    [last_answer] unchanged and without a call of the pipeline, for
    every value of the counter.  With the counter below 2 the mode is
    unchanged too and the reply is the request for valid feedback; with
    the counter at 2 or more the mode becomes [waiting_for_query] and
    the reply announces the end of the round. *)
Theorem invalid_feedback_frame
    (lower : string -> string) (split : string -> list string)
    (embedding : Type) (encode : string -> embedding)
    (cos_sim : embedding -> embedding -> Q)
    (qa_model : string -> string -> option nat -> result string)
    (read_text extract_text_from_pdf : string -> result string)
    (w : World embedding) (user_input : string) :
  reachable lower split embedding encode cos_sim qa_model read_text
    extract_text_from_pdf (session w) ->
  mode (session w) = waiting_for_feedback ->
  lower user_input <> "good" ->
  lower user_input <> "too vague" ->
  lower user_input <> "not helpful" ->
  exists w',
    handle_input lower split embedding encode cos_sim qa_model user_input w
      = (Ok (chat_history (session w')), w') /\
    feedback_count (session w') = feedback_count (session w) /\
    current_query (session w') = current_query (session w) /\
    last_answer (session w') = last_answer (session w) /\
    qa_calls w' = qa_calls w /\
    (feedback_count (session w) < 2 ->
     mode (session w') = waiting_for_feedback /\
     chat_history (session w') =
       (chat_history (session w)
        ++ [("User", lower user_input);
            ("Bot",
             "Please provide valid feedback: good, too vague, not helpful.")])%list) /\
    (2 <= feedback_count (session w) ->
     mode (session w') = waiting_for_query /\
     chat_history (session w') =
       (chat_history (session w)
        ++ [("User", lower user_input);
            ("Bot",
             "Maximum feedback iterations reached. You can ask another question.")])%list).
Proof.
  intros Hr Hm Hg Hv Hh.
  destruct (le_lt_dec 2 (feedback_count (session w))) as [Hcap|Hn].
  - destruct (handle_capped lower split embedding encode cos_sim qa_model w user_input
                Hm Hg Hcap)
      as (w' & Hrun & Hmode & Hcount & Hquery & Hlast & Hcalls & Hchat).
    exists w'. repeat split; try assumption; try lia.
    rewrite Hchat, <- app_assoc. reflexivity.
  - destruct (reachable_resolves _ _ _ _ _ _ _ _ _ Hr Hm)
      as (prior & query & secs & embs & context & Ha & Hq & Hs & He & Hctx).
    destruct (handle_invalid lower split embedding encode cos_sim qa_model w user_input
                query secs embs context Hm Hg Hv Hh Hn Hq Hs He Hctx)
      as (w' & Hrun & Hmode & Hcount & Hquery & Hlast & Hcalls & Hchat).
    exists w'. repeat split; try assumption; try lia.
    + congruence.
    + rewrite Hchat, <- app_assoc. reflexivity.
Qed.

Lemma invalid_feedback_frame_witness :
  exists w',
    Demo.handle_input "Thanks" Demo.asked
      = (Ok (chat_history (session w')), w') /\
    feedback_count (session w') = feedback_count (session Demo.asked) /\
    current_query (session w') = current_query (session Demo.asked) /\
    last_answer (session w') = last_answer (session Demo.asked) /\
    qa_calls w' = qa_calls Demo.asked /\
    (feedback_count (session Demo.asked) < 2 ->
     mode (session w') = waiting_for_feedback /\
     chat_history (session w') =
       (chat_history (session Demo.asked)
        ++ [("User", Demo.lower "Thanks");
            ("Bot",
             "Please provide valid feedback: good, too vague, not helpful.")])%list) /\
    (2 <= feedback_count (session Demo.asked) ->
     mode (session w') = waiting_for_query /\
     chat_history (session w') =
       (chat_history (session Demo.asked)
        ++ [("User", Demo.lower "Thanks");
            ("Bot",
             "Maximum feedback iterations reached. You can ask another question.")])%list).
Proof.
  apply (invalid_feedback_frame Demo.lower Demo.split Demo.embedding
              Demo.encode Demo.cos_sim
           Demo.qa_model Demo.read_text Demo.extract_text_from_pdf).
  - apply demo_asked_reachable.
  - vm_compute. reflexivity.
  - vm_compute. discriminate.
  - vm_compute. discriminate.
  - vm_compute. discriminate.
Defined.

(** ** The sentinel in the answer step *)

(** C7. For every query, when the resolver returns the sentinel, the
    answer step returns it unchanged: the handler returns, the sentinel
    is the new [last_answer] and the text of the bot's turn, and the
    pipeline is not called. *)
Theorem answer_step_passes_sentinel
    (lower : string -> string) (split : string -> list string)
    (embedding : Type) (encode : string -> embedding)
    (cos_sim : embedding -> embedding -> Q)
    (qa_model : string -> string -> option nat -> result string)
    (w : World embedding) (query : string)
    (secs : list string) (embs : list embedding) :
  mode (session w) = waiting_for_query ->
  sections (session w) = Some secs ->
  section_embeddings (session w) = Some embs ->
  find_relevant_section lower split embedding encode cos_sim query secs embs
    = Ok sentinel ->
  exists w',
    handle_input lower split embedding encode cos_sim qa_model query w
      = (Ok (chat_history (session w')), w') /\
    last_answer (session w') = Some sentinel /\
    qa_calls w' = qa_calls w /\
    mode (session w') = waiting_for_feedback /\
    chat_history (session w')
      = (chat_history (session w)
         ++ [("User", query);
             ("Bot", ("Answer: " ++ sentinel ++ nl
                      ++ "Please provide feedback: good, too vague, not helpful.")%string)])%list.
Proof.
  destruct w as [s calls]. destruct s as [doc secs0 embs0 q n m chat a].
  simpl. intros -> -> -> Hctx. run_handler. rewrite Hctx. simpl.
  lazymatch goal with
  | |- exists w', (_, ?x) = _ /\ _ => exists x
  end.
  split; [reflexivity|]. simpl. rewrite <- app_assoc. auto.
Qed.

Lemma answer_step_passes_sentinel_witness :
  exists w',
    Demo.handle_input "Do you sell gift cards?" Demo.uploaded
      = (Ok (chat_history (session w')), w') /\
    last_answer (session w') = Some sentinel /\
    qa_calls w' = qa_calls Demo.uploaded /\
    mode (session w') = waiting_for_feedback /\
    chat_history (session w')
      = (chat_history (session Demo.uploaded)
         ++ [("User", "Do you sell gift cards?");
             ("Bot", ("Answer: " ++ sentinel ++ nl
                      ++ "Please provide feedback: good, too vague, not helpful.")%string)])%list.
Proof.
  apply (answer_step_passes_sentinel Demo.lower Demo.split Demo.embedding
           Demo.encode Demo.cos_sim Demo.qa_model Demo.uploaded
           "Do you sell gift cards?"
           ["Returns are accepted within 30 days.";
            "Shipping takes 5-7 business days."]
           (map Demo.encode ["Returns are accepted within 30 days.";
                             "Shipping takes 5-7 business days."]));
    vm_compute; reflexivity.
Defined.
(** * Further properties of the code *)

(** ** The segmenter: [text.split('\n\n')] *)

(** Induction two characters at a time, as [split_blank_lines] recurses. *)
Lemma string_pair_ind (P : string -> Prop) :
  P EmptyString ->
  (forall c, P (String c EmptyString)) ->
  (forall c c' rest, P rest -> P (String c' rest) -> P (String c (String c' rest))) ->
  forall s, P s.
Proof.
  intros H0 H1 H2 s.
  assert (H : P s /\ forall c, P (String c s)); [|apply H].
  induction s as [|c' rest [IH IH']]; split; auto.
Qed.

Lemma split_blank_lines_head (c : ascii) (rest : string) :
  exists piece pieces,
    PyStr.split_blank_lines (String c rest) = piece :: pieces /\
    (piece = EmptyString \/ exists tail, piece = String c tail).
Proof.
  destruct rest as [|c' rest']; simpl.
  { do 2 eexists. split; [reflexivity|]. right. eexists. reflexivity. }
  destruct (Ascii.eqb c PyStr.newline && Ascii.eqb c' PyStr.newline).
  { do 2 eexists. split; [reflexivity|]. left. reflexivity. }
  destruct (match rest' with EmptyString => _ | String _ _ => _ end);
    do 2 eexists; (split; [reflexivity|]); right; eexists; reflexivity.
Qed.

(** X1. Joining the sections with blank lines gives the text back. *)
Theorem split_blank_lines_join (text : string) :
  PyStr.join (nl ++ nl) (PyStr.split_blank_lines text) = text.
Proof.
  induction text as [|c|c c' rest IH IH'] using string_pair_ind;
    [reflexivity|reflexivity|].
  change (PyStr.split_blank_lines (String c (String c' rest))) with
    (if Ascii.eqb c PyStr.newline && Ascii.eqb c' PyStr.newline
     then EmptyString :: PyStr.split_blank_lines rest
     else match PyStr.split_blank_lines (String c' rest) with
          | piece :: pieces => String c piece :: pieces
          | [] => [String c EmptyString]
          end).
  destruct (Ascii.eqb c PyStr.newline && Ascii.eqb c' PyStr.newline) eqn:E.
  - apply andb_prop in E as [Ec Ec'].
    apply Ascii.eqb_eq in Ec, Ec'. subst.
    pose proof (split_blank_lines_nonempty rest) as Hne.
    destruct (PyStr.split_blank_lines rest) as [|p ps]; [congruence|].
    change (PyStr.join (nl ++ nl) (EmptyString :: p :: ps))
      with ((nl ++ nl) ++ PyStr.join (nl ++ nl) (p :: ps)).
    rewrite IH. reflexivity.
  - pose proof (split_blank_lines_nonempty (String c' rest)) as Hne.
    destruct (PyStr.split_blank_lines (String c' rest)) as [|p ps];
      [congruence|].
    destruct ps as [|p' ps].
    + simpl in *. congruence.
    + change (PyStr.join (nl ++ nl) (String c p :: p' :: ps))
        with (String c (p ++ (nl ++ nl) ++ PyStr.join (nl ++ nl) (p' :: ps))).
      change (PyStr.join (nl ++ nl) (p :: p' :: ps))
        with (p ++ (nl ++ nl) ++ PyStr.join (nl ++ nl) (p' :: ps)) in IH'.
      rewrite IH'. reflexivity.
Qed.

(** X2. A text without a blank line is one section, the whole text. *)
Theorem split_blank_lines_single (text : string) :
  PyStr.has_blank_line text = false ->
  PyStr.split_blank_lines text = [text].
Proof.
  induction text as [|c|c c' rest IH IH'] using string_pair_ind;
    [reflexivity|reflexivity|].
  intros H.
  change (PyStr.has_blank_line (String c (String c' rest))) with
    ((Ascii.eqb c PyStr.newline && Ascii.eqb c' PyStr.newline)
     || PyStr.has_blank_line (String c' rest)) in H.
  apply orb_false_elim in H as [E H].
  change (PyStr.split_blank_lines (String c (String c' rest))) with
    (if Ascii.eqb c PyStr.newline && Ascii.eqb c' PyStr.newline
     then EmptyString :: PyStr.split_blank_lines rest
     else match PyStr.split_blank_lines (String c' rest) with
          | piece :: pieces => String c piece :: pieces
          | [] => [String c EmptyString]
          end).
  rewrite E, (IH' H). reflexivity.
Qed.

Lemma split_blank_lines_single_witness :
  PyStr.split_blank_lines ("Returns are accepted." ++ nl ++ "Within 30 days.")
  = ["Returns are accepted." ++ nl ++ "Within 30 days."].
Proof.
  apply split_blank_lines_single. vm_compute. reflexivity.
Defined.

(** X3. No section contains a blank line. *)
Theorem split_blank_lines_sections (text : string) :
  Forall (fun section => PyStr.has_blank_line section = false)
         (PyStr.split_blank_lines text).
Proof.
  induction text as [|c|c c' rest IH IH'] using string_pair_ind;
    [repeat constructor|repeat constructor|].
  change (PyStr.split_blank_lines (String c (String c' rest))) with
    (if Ascii.eqb c PyStr.newline && Ascii.eqb c' PyStr.newline
     then EmptyString :: PyStr.split_blank_lines rest
     else match PyStr.split_blank_lines (String c' rest) with
          | piece :: pieces => String c piece :: pieces
          | [] => [String c EmptyString]
          end).
  destruct (Ascii.eqb c PyStr.newline && Ascii.eqb c' PyStr.newline) eqn:E.
  - constructor; [reflexivity|exact IH].
  - destruct (split_blank_lines_head c' rest) as (p & ps & Hsplit & Hp).
    rewrite Hsplit in *. inversion IH' as [|? ? Hfree Hrest]; subst.
    constructor; [|exact Hrest].
    destruct Hp as [->|[tail ->]]; [reflexivity|].
    change (PyStr.has_blank_line (String c (String c' tail))) with
      ((Ascii.eqb c PyStr.newline && Ascii.eqb c' PyStr.newline)
       || PyStr.has_blank_line (String c' tail)).
    rewrite E, Hfree. reflexivity.
Qed.

(** ** The resolver, read backwards *)

Section ArgmaxSound.

Local Open Scope Q_scope.

(** Either no entry of [l] beats [best], or the entry selected does,
    is not beaten within [l], and is the first such. *)
Lemma argmax_from_sound (l : list Q) :
  forall (best_i i : nat) (best : Q),
    (argmax_from best_i best i l = best_i /\ Forall (fun w => w <= best) l) \/
    (exists k v,
       argmax_from best_i best i l = (i + k)%nat /\ l !! k = Some v /\
       best < v /\ Forall (fun w => w <= v) l /\
       Forall (fun w => w < v) (take k l)).
Proof.
  induction l as [|x rest IH]; intros best_i i best; simpl.
  - left. split; [reflexivity|constructor].
  - destruct (Qle_bool x best) eqn:E.
    + apply Qle_bool_iff in E.
      destruct (IH best_i (S i) best)
        as [[Hr Hall]|(k & v & Hr & Hk & Hlt & Hall & Hpre)].
      * left. split; [exact Hr|constructor; assumption].
      * right. exists (S k), v. rewrite Hr. simpl.
        repeat split; try assumption; [lia| |].
        -- constructor; [|assumption].
           apply Qlt_le_weak. eapply Qle_lt_trans; eauto.
        -- constructor; [|assumption]. eapply Qle_lt_trans; eauto.
    + assert (Hx : best < x).
      { apply Qnot_le_lt. intros H. apply Qle_bool_iff in H. congruence. }
      destruct (IH i (S i) x)
        as [[Hr Hall]|(k & v & Hr & Hk & Hlt & Hall & Hpre)].
      * right. exists 0%nat, x. rewrite Hr. simpl.
        repeat split; try assumption; [lia| |constructor].
        constructor; [apply Qle_refl|assumption].
      * right. exists (S k), v. rewrite Hr. simpl.
        repeat split; try assumption; [lia| | |].
        -- eapply Qlt_trans; eauto.
        -- constructor; [apply Qlt_le_weak|]; assumption.
        -- constructor; assumption.
Qed.

Lemma argmax_sound (l : list Q) (k : nat) :
  argmax l = Ok k ->
  exists v, l !! k = Some v /\ Forall (fun w => w <= v) l /\
            Forall (fun w => w < v) (take k l).
Proof.
  destruct l as [|x rest]; [discriminate|]. simpl. intros [= <-].
  destruct (argmax_from_sound rest 0 1 x)
    as [[Hr Hall]|(k & v & Hr & Hk & Hlt & Hall & Hpre)]; rewrite Hr.
  - exists x. repeat split; [|constructor].
    constructor; [apply Qle_refl|assumption].
  - exists v. simpl. repeat split; [assumption| |].
    + constructor; [apply Qlt_le_weak|]; assumption.
    + constructor; assumption.
Qed.

End ArgmaxSound.

Lemma keyword_search_none_inv (lower : string -> string)
    (split : string -> list string) (query : string)
    (sections : list string) :
  keyword_search lower split (significant_words lower split query) sections
  = None ->
  Forall (fun s => spec_overlap lower split query s < 2) sections.
Proof.
  unfold spec_overlap. setoid_rewrite <- significant_words_spec.
  induction sections as [|s rest IH]; simpl; [constructor|].
  destruct (decide _); [discriminate|].
  intros H. constructor; [lia|auto].
Qed.

(** X4. When the resolver answers with the sentinel and the sentinel is not
    itself a section, nothing matched: every similarity is below 0.4 and
    no section shares two tokens with the query (tokens of the lower-case
    text, split at white space, stop words dropped). *)
Theorem resolver_sentinel_only_when_unmatched
    (lower : string -> string) (split : string -> list string)
    (embedding : Type) (encode : string -> embedding)
    (cos_sim : embedding -> embedding -> Q)
    (query : string) (secs : list string) (embs : list embedding) :
  find_relevant_section lower split embedding encode cos_sim query secs embs
    = Ok sentinel ->
  sentinel ∉ secs ->
  Forall (fun w => w < 0.4)%Q (similarities embedding encode cos_sim query embs)
  /\ Forall (fun s => spec_overlap lower split query s < 2) secs.
Proof.
  unfold find_relevant_section. intros H Hnot.
  destruct (argmax _) as [k|e] eqn:Hk; [|discriminate].
  destruct (secs !! k) as [best|] eqn:Hbest; [|discriminate].
  cbv zeta in H.
  destruct (argmax_sound _ _ Hk) as (v & Hv & Hall & _).
  rewrite nth_lookup, Hv in H. simpl in H.
  destruct (Qle_bool SIMILARITY_THRESHOLD v) eqn:E.
  { injection H as ->. exfalso. apply Hnot.
    eapply list_elem_of_lookup_2; eauto. }
  assert (Hlow : (v < SIMILARITY_THRESHOLD)%Q).
  { apply Qnot_le_lt. intros Hle. apply Qle_bool_iff in Hle. congruence. }
  destruct (keyword_search _ _ _ secs) as [s|] eqn:Hs.
  { injection H as ->. exfalso. apply Hnot.
    eapply keyword_search_elem; eauto. }
  split.
  - eapply Forall_impl; [exact Hall|].
    intros w Hw. simpl in Hw. eapply Qle_lt_trans; eauto.
  - apply keyword_search_none_inv. exact Hs.
Qed.

Lemma resolver_sentinel_only_when_unmatched_witness :
  Forall (fun w => w < 0.4)%Q
    (similarities Demo.embedding Demo.encode Demo.cos_sim
       "Do you sell gift cards?"
       (map Demo.encode ["Returns are accepted within 30 days.";
                         "Shipping takes 5-7 business days."]))
  /\ Forall (fun s => spec_overlap Demo.lower Demo.split
                        "Do you sell gift cards?" s < 2)
       ["Returns are accepted within 30 days.";
        "Shipping takes 5-7 business days."].
Proof.
  apply (resolver_sentinel_only_when_unmatched Demo.lower Demo.split
           Demo.embedding Demo.encode Demo.cos_sim).
  - vm_compute. reflexivity.
  - intros H. apply list_elem_of_In in H. simpl in H.
    destruct H as [H|[H|[]]]; vm_compute in H; discriminate.
Defined.

(** X5. A query with fewer than two distinct tokens (lower case, split at
    white space, stop words dropped) cannot match by keyword: when no
    similarity reaches 0.4 it gets the sentinel, whatever the sections
    say. *)
Theorem resolver_short_query
    (lower : string -> string) (split : string -> list string)
    (embedding : Type) (encode : string -> embedding)
    (cos_sim : embedding -> embedding -> Q)
    (query : string) (secs : list string) (embs : list embedding) :
  size (spec_tokens lower split query) < 2 ->
  secs <> [] ->
  length embs = length secs ->
  Forall (fun w => w < 0.4)%Q (similarities embedding encode cos_sim query embs) ->
  find_relevant_section lower split embedding encode cos_sim query secs embs = Ok sentinel.
Proof.
  intros Hshort Hne Hlen Hlow.
  rewrite resolver_fallback by assumption.
  rewrite keyword_search_none; [reflexivity|].
  apply Forall_forall. intros s _. unfold spec_overlap.
  eapply Nat.le_lt_trans; [|exact Hshort].
  apply subseteq_size, intersection_subseteq_l.
Qed.

(** The repeated word counts once, and the stop words not at all. *)
Lemma resolver_short_query_witness :
  find_relevant_section Demo.lower Demo.split unit (fun _ => tt)
    (fun _ _ => 0%Q)
    "What is the refund for a REFUND"
    ["refund"; "what is the refund for a refund"] [tt; tt]
  = Ok sentinel.
Proof.
  apply resolver_short_query.
  - vm_compute. lia.
  - discriminate.
  - reflexivity.
  - q_all.
Defined.

(** ** The session handlers, step by step *)

Lemma endswith_exclusive (s : string) :
  PyStr.endswith s ".txt" = true -> PyStr.endswith s ".pdf" = false.
Proof.
  unfold PyStr.endswith. simpl String.length.
  destruct (4 <=? String.length s)%nat; simpl; [|reflexivity].
  intros H. apply String.eqb_eq in H. rewrite H. reflexivity.
Qed.

Ltac grows :=
  repeat split; rewrite <- ?app_assoc, ?app_nil_r; simpl;
  solve [reflexivity | lia].

Section SessionSteps.

Variable lower : string -> string.
Variable split : string -> list string.
Variable embedding : Type.
Variable encode : string -> embedding.
Variable cos_sim : embedding -> embedding -> Q.
Variable qa_model : string -> string -> option nat -> result string.
Variable read_text : string -> result string.
Variable extract_text_from_pdf : string -> result string.

Abbreviation World := (World embedding).
Abbreviation handle :=
  (handle_input lower split embedding encode cos_sim qa_model).
Abbreviation upload :=
  (process_file lower embedding encode read_text extract_text_from_pdf).
Abbreviation resolver :=
  (find_relevant_section lower split embedding encode cos_sim).

(** X6. An upload without a file, or of a file that is neither PDF nor TXT,
    is answered by a message of its own and leaves the session, chat
    history included, as it was. *)
Theorem process_file_rejects (file : option string) (w : World) :
  match file with
  | None => True
  | Some path =>
      PyStr.endswith (lower path) ".pdf" = false /\
      PyStr.endswith (lower path) ".txt" = false
  end ->
  exists reply, upload file w = (Ok [("Bot", reply)], w).
Proof.
  unfold process_file. destruct file as [path|]; [|eauto].
  intros [-> ->]. eauto.
Qed.

(** X7. An upload that raises installs nothing: the session is untouched. *)
Theorem process_file_raise_keeps_session (file : option string) (w : World)
    (e : exn) :
  fst (upload file w) = Raise e -> snd (upload file w) = w.
Proof.
  unfold process_file. destruct file as [path|]; [|discriminate].
  destruct (PyStr.endswith _ ".pdf").
  - run_handler. destruct (extract_text_from_pdf path); simpl;
      [discriminate|reflexivity].
  - destruct (PyStr.endswith _ ".txt"); [|discriminate].
    run_handler. destruct (read_text path); simpl; [discriminate|reflexivity].
Qed.

(** X8. A text file that is read starts the conversation over: its text is
    cut into at least one section, each with its embedding; the query,
    the counter and the chat history are dropped; the last answer and
    the record of pipeline calls stay. *)
Theorem process_file_loads (path text : string) (w : World) :
  PyStr.endswith (lower path) ".txt" = true ->
  read_text path = Ok text ->
  exists secs w',
    upload (Some path) w = (Ok (chat_history (session w')), w') /\
    secs = PyStr.split_blank_lines text /\ secs <> [] /\
    document_text (session w') = Some text /\
    sections (session w') = Some secs /\
    section_embeddings (session w') = Some (map encode secs) /\
    current_query (session w') = None /\
    feedback_count (session w') = 0 /\
    mode (session w') = waiting_for_query /\
    chat_history (session w')
      = [("Bot", "File processed. You can now ask questions.")] /\
    last_answer (session w') = last_answer (session w) /\
    qa_calls w' = qa_calls w.
Proof.
  intros Htxt Hread. unfold process_file.
  rewrite (endswith_exclusive _ Htxt), Htxt. run_handler. rewrite Hread. simpl.
  exists (PyStr.split_blank_lines text).
  lazymatch goal with
  | |- exists w', (_, ?x) = _ /\ _ => exists x
  end.
  split; [reflexivity|]. simpl.
  split; [reflexivity|].
  split; [apply split_blank_lines_nonempty|]. auto 10.
Qed.

(** X9. Before a file is uploaded every input only adds the request to
    upload one. *)
Theorem handle_input_before_upload (w : World) (user_input : string) :
  mode (session w) = waiting_for_upload ->
  exists w',
    handle user_input w = (Ok (chat_history (session w')), w') /\
    chat_history (session w')
      = (chat_history (session w) ++ [("Bot", "Please upload a file first.")])%list /\
    mode (session w') = waiting_for_upload /\
    current_query (session w') = current_query (session w) /\
    feedback_count (session w') = feedback_count (session w) /\
    last_answer (session w') = last_answer (session w) /\
    qa_calls w' = qa_calls w.
Proof.
  destruct w as [s calls]. destruct s as [doc secs embs q n m chat a].
  simpl. intros ->. run_handler. step_done.
Qed.

(** X10. No input changes the document: text, sections and embeddings are
    the same after [handle_input], whatever the mode and the outcome. *)
Theorem handle_input_keeps_document (w : World) (user_input : string) :
  let w' := snd (handle user_input w) in
  document_text (session w') = document_text (session w) /\
  sections (session w') = sections (session w) /\
  section_embeddings (session w') = section_embeddings (session w).
Proof.
  destruct w as [s calls]. destruct s as [doc secs embs q n m chat a].
  cbv zeta. run_handler. destruct m; simpl; [auto| |].
  - destruct secs, embs; simpl; auto.
    destruct (find_relevant_section _ _ _ _ _ _ _ _) as [context|e]; simpl; auto.
    destruct (String.eqb context sentinel); simpl; auto.
    destruct (qa_model _ _ _); simpl; auto.
  - destruct (String.eqb (lower user_input) "good"); simpl; auto.
    destruct n as [|[|n]]; simpl; auto.
    all: destruct q, secs, embs; simpl; auto.
    all: destruct (find_relevant_section _ _ _ _ _ _ _ _) as [context|e]; simpl;
      auto.
    all: destruct (String.eqb _ "too vague"); simpl; auto.
    all: destruct (String.eqb _ "not helpful"); simpl; auto.
    all: destruct (qa_model _ _ _); simpl; auto.
Qed.

(** X11. The chat history and the record of pipeline calls only grow: one
    input adds at most two turns and at most one call. *)
Theorem handle_input_appends (w : World) (user_input : string) :
  exists turns calls,
    chat_history (session (snd (handle user_input w)))
      = (chat_history (session w) ++ turns)%list /\
    qa_calls (snd (handle user_input w)) = (qa_calls w ++ calls)%list /\
    length turns <= 2 /\ length calls <= 1.
Proof.
  destruct w as [s calls]. destruct s as [doc secs embs q n m chat a].
  run_handler.
  destruct m; simpl.
  - eexists [_], []. grows.
  - destruct secs, embs; simpl; try (exists [], []; grows).
    destruct (find_relevant_section _ _ _ _ _ _ _ _) as [context|e]; simpl;
      [|exists [], []; grows].
    destruct (String.eqb context sentinel); simpl.
    + eexists [_; _], []. grows.
    + destruct (qa_model _ _ _); simpl.
      * eexists [_; _], [_]. grows.
      * eexists [], [_]. grows.
  - destruct (String.eqb (lower user_input) "good"); simpl.
    { eexists [_; _], []. grows. }
    destruct n as [|[|n]]; simpl.
    3: { eexists [_; _], []. grows. }
    all: destruct q, secs, embs; simpl; try (eexists [_], []; grows).
    all: destruct (find_relevant_section _ _ _ _ _ _ _ _) as [context|e]; simpl;
      [|eexists [_], []; grows].
    all: destruct (String.eqb _ "too vague"); simpl;
      [eexists [_; _], []; grows|].
    all: destruct (String.eqb _ "not helpful"); simpl;
      [|eexists [_; _], []; grows].
    all: destruct (qa_model _ _ _); simpl;
      [eexists [_; _], [_]; grows|eexists [_], [_]; grows].
Qed.

(** X12. [good] ends the round at every value of the counter: the mode
    goes back to [waiting_for_query] and nothing else but the chat
    history changes. *)
Theorem handle_input_good (w : World) (user_input : string) :
  mode (session w) = waiting_for_feedback ->
  lower user_input = "good" ->
  exists w',
    handle user_input w = (Ok (chat_history (session w')), w') /\
    mode (session w') = waiting_for_query /\
    feedback_count (session w') = feedback_count (session w) /\
    current_query (session w') = current_query (session w) /\
    last_answer (session w') = last_answer (session w) /\
    qa_calls w' = qa_calls w /\
    chat_history (session w')
      = (chat_history (session w)
         ++ [("User", "good");
             ("Bot",
              "Thank you for your feedback. You can ask another question.")])%list.
Proof.
  destruct w as [s calls]. destruct s as [doc secs embs q n m chat a].
  simpl. intros -> Hgood. run_handler. rewrite Hgood. simpl.
  lazymatch goal with
  | |- exists w', (_, ?x) = _ /\ _ => exists x
  end.
  split; [reflexivity|]. simpl. rewrite <- app_assoc. auto 10.
Qed.

(** X13. While feedback is awaited the handler reads the input in lower
    case only: two inputs with the same lower-case form give the same
    outcome and the same session; so does an input and its lower-case
    form, lower-casing twice being the same as once. *)
Theorem handle_input_feedback_ignores_case (w : World) (user_input : string) :
  mode (session w) = waiting_for_feedback ->
  (forall other : string,
     lower other = lower user_input ->
     handle user_input w = handle other w) /\
  (lower (lower user_input) = lower user_input ->
   handle user_input w = handle (lower user_input) w).
Proof.
  destruct w as [s calls]. destruct s as [doc secs embs q n m chat a].
  simpl. intros ->.
  assert (H : forall other : string,
            lower other = lower user_input ->
            handle user_input (mkWorld (mkState doc secs embs q n
                                          waiting_for_feedback chat a) calls)
            = handle other (mkWorld (mkState doc secs embs q n
                                       waiting_for_feedback chat a) calls)).
  { intros other Heq. unfold handle_input, bind, get. simpl.
    rewrite Heq. reflexivity. }
  split; [exact H|]. intros Hidem. apply H. exact Hidem.
Qed.

(** X14. In a reachable session awaiting a query the resolver never fails:
    the query is answered by the sentinel or by the pipeline, and the
    only exception that can leave the handler is the pipeline's.  When
    it does, the session still awaits a query and keeps its answer and
    chat history, though the query is already stored. *)
Theorem handle_input_query (w : World) (query : string) :
  reachable lower split embedding encode cos_sim qa_model read_text
    extract_text_from_pdf (session w) ->
  mode (session w) = waiting_for_query ->
  exists secs embs context,
    sections (session w) = Some secs /\
    section_embeddings (session w) = Some embs /\
    resolver query secs embs = Ok context /\
    let run := handle query w in
    current_query (session (snd run)) = Some query /\
    match (if String.eqb context sentinel then Ok context
           else qa_model query context None) with
    | Ok answer =>
        fst run = Ok (chat_history (session (snd run))) /\
        mode (session (snd run)) = waiting_for_feedback /\
        last_answer (session (snd run)) = Some answer /\
        chat_history (session (snd run))
          = (chat_history (session w)
             ++ [("User", query);
                 ("Bot", ("Answer: " ++ answer ++ nl
                          ++ "Please provide feedback: good, too vague, not helpful.")%string)])%list
    | Raise e =>
        fst run = Raise e /\
        mode (session (snd run)) = waiting_for_query /\
        last_answer (session (snd run)) = last_answer (session w) /\
        chat_history (session (snd run)) = chat_history (session w)
    end.
Proof.
  intros Hr Hm. apply reachable_ok in Hr. destruct Hr as (_ & Hsecs & _).
  destruct Hsecs as (secs & Hs & Hne & He); [congruence|].
  destruct (resolver_total lower split embedding encode cos_sim query secs
              (map encode secs) Hne) as [context Hctx]; [apply length_map|].
  exists secs, (map encode secs), context.
  destruct w as [s calls]. destruct s as [doc secs0 embs0 q n m chat a].
  simpl in *. subst. cbv zeta. run_handler. rewrite Hctx. simpl.
  repeat split; try reflexivity.
  - destruct (String.eqb context sentinel); simpl; [reflexivity|].
    destruct (qa_model _ _ _); reflexivity.
  - destruct (String.eqb context sentinel); simpl.
    + rewrite <- app_assoc. auto.
    + destruct (qa_model _ _ _); simpl; [rewrite <- app_assoc|]; auto.
Qed.

(** X15. The modes move one way: before an upload inputs leave the session
    in [waiting_for_upload]; after one, neither an input nor another
    upload brings it back there. *)
Theorem mode_never_back_to_upload (w : World) (user_input : string)
    (file : option string) :
  (mode (session w) = waiting_for_upload ->
   mode (session (snd (handle user_input w))) = waiting_for_upload) /\
  (mode (session w) <> waiting_for_upload ->
   mode (session (snd (handle user_input w))) <> waiting_for_upload /\
   mode (session (snd (upload file w))) <> waiting_for_upload).
Proof.
  destruct w as [s calls]. destruct s as [doc secs embs q n m chat a].
  simpl. split.
  - intros ->. run_handler. reflexivity.
  - intros Hm. split.
    + run_handler. destruct m; simpl; [congruence| |].
      * destruct secs, embs; simpl; try discriminate.
        destruct (find_relevant_section _ _ _ _ _ _ _ _) as [context|e]; simpl;
          [|discriminate].
        destruct (String.eqb context sentinel); simpl; [discriminate|].
        destruct (qa_model _ _ _); discriminate.
      * destruct (String.eqb (lower user_input) "good"); simpl;
          [discriminate|].
        destruct n as [|[|n]]; simpl; [| |discriminate].
        all: destruct q, secs, embs; simpl; try discriminate.
        all: destruct (find_relevant_section _ _ _ _ _ _ _ _) as [context|e];
          simpl; [|discriminate].
        all: destruct (String.eqb _ "too vague"); simpl; [discriminate|].
        all: destruct (String.eqb _ "not helpful"); simpl; [|discriminate].
        all: destruct (qa_model _ _ _); discriminate.
    + unfold process_file. destruct file as [path|]; [|exact Hm].
      destruct (PyStr.endswith _ ".pdf").
      * run_handler. destruct (extract_text_from_pdf path); simpl;
          [discriminate|exact Hm].
      * destruct (PyStr.endswith _ ".txt"); [|exact Hm].
        run_handler. destruct (read_text path); simpl;
          [discriminate|exact Hm].
Qed.

(** X16. Two [too vague] rounds in a row: the second excerpt is appended to
    the answer that already carries the first, the counter reaches 2,
    and the pipeline is not called. *)
Theorem too_vague_twice (w : World) (first second prior query context : string)
    (secs : list string) (embs : list embedding) :
  lower first = "too vague" ->
  lower second = "too vague" ->
  mode (session w) = waiting_for_feedback ->
  feedback_count (session w) = 0 ->
  last_answer (session w) = Some prior ->
  current_query (session w) = Some query ->
  sections (session w) = Some secs ->
  section_embeddings (session w) = Some embs ->
  resolver query secs embs = Ok context ->
  let w' := snd (handle second (snd (handle first w))) in
  last_answer (session w')
    = Some (more_details (more_details prior context) context) /\
  feedback_count (session w') = 2 /\
  mode (session w') = waiting_for_feedback /\
  qa_calls w' = qa_calls w.
Proof.
  destruct w as [s calls]. destruct s as [doc secs0 embs0 q n m chat a].
  simpl. intros H1 H2 -> -> -> -> -> -> Hctx. run_handler.
  rewrite H1. simpl. rewrite Hctx. simpl.
  rewrite H2. simpl. rewrite Hctx. simpl. auto.
Qed.

End SessionSteps.

Lemma process_file_rejects_witness :
  exists reply,
    Demo.process_file (Some "notes.DOCX") Demo.asked
    = (Ok [("Bot", reply)], Demo.asked).
Proof.
  apply (process_file_rejects Demo.lower Demo.embedding Demo.encode
           Demo.read_text Demo.extract_text_from_pdf (Some "notes.DOCX")).
  split; reflexivity.
Defined.

Lemma process_file_raise_keeps_session_witness :
  snd (Demo.process_file (Some "missing.txt") Demo.asked) = Demo.asked.
Proof.
  apply (process_file_raise_keeps_session Demo.lower Demo.embedding
           Demo.encode Demo.read_text Demo.extract_text_from_pdf _ _ OSError).
  reflexivity.
Defined.

Lemma process_file_loads_witness :
  exists secs w',
    Demo.process_file (Some "faq.txt") Demo.asked
      = (Ok (chat_history (session w')), w') /\
    secs = PyStr.split_blank_lines
             ("Returns are accepted within 30 days." ++ nl ++ nl
              ++ "Shipping takes 5-7 business days.") /\
    secs <> [] /\
    document_text (session w')
      = Some ("Returns are accepted within 30 days." ++ nl ++ nl
              ++ "Shipping takes 5-7 business days.") /\
    sections (session w') = Some secs /\
    section_embeddings (session w') = Some (map Demo.encode secs) /\
    current_query (session w') = None /\
    feedback_count (session w') = 0 /\
    mode (session w') = waiting_for_query /\
    chat_history (session w')
      = [("Bot", "File processed. You can now ask questions.")] /\
    last_answer (session w') = last_answer (session Demo.asked) /\
    qa_calls w' = qa_calls Demo.asked.
Proof.
  apply (process_file_loads Demo.lower Demo.embedding Demo.encode
           Demo.read_text Demo.extract_text_from_pdf "faq.txt"); reflexivity.
Defined.

Lemma handle_input_before_upload_witness :
  exists w',
    Demo.handle_input "Where is my order?" Demo.fresh
      = (Ok (chat_history (session w')), w') /\
    chat_history (session w')
      = (chat_history (session Demo.fresh)
         ++ [("Bot", "Please upload a file first.")])%list /\
    mode (session w') = waiting_for_upload /\
    current_query (session w') = current_query (session Demo.fresh) /\
    feedback_count (session w') = feedback_count (session Demo.fresh) /\
    last_answer (session w') = last_answer (session Demo.fresh) /\
    qa_calls w' = qa_calls Demo.fresh.
Proof.
  apply (handle_input_before_upload Demo.lower Demo.split Demo.embedding
           Demo.encode Demo.cos_sim Demo.qa_model).
  reflexivity.
Defined.

Lemma handle_input_good_witness :
  exists w',
    Demo.handle_input "GOOD" Demo.refined_twice
      = (Ok (chat_history (session w')), w') /\
    mode (session w') = waiting_for_query /\
    feedback_count (session w') = feedback_count (session Demo.refined_twice) /\
    current_query (session w') = current_query (session Demo.refined_twice) /\
    last_answer (session w') = last_answer (session Demo.refined_twice) /\
    qa_calls w' = qa_calls Demo.refined_twice /\
    chat_history (session w')
      = (chat_history (session Demo.refined_twice)
         ++ [("User", "good");
             ("Bot",
              "Thank you for your feedback. You can ask another question.")])%list.
Proof.
  apply (handle_input_good Demo.lower Demo.split Demo.embedding Demo.encode
           Demo.cos_sim Demo.qa_model).
  - vm_compute. reflexivity.
  - reflexivity.
Defined.

Lemma handle_input_feedback_ignores_case_witness :
  Demo.handle_input "Too VAGUE" Demo.asked
    = Demo.handle_input "tOO vague" Demo.asked /\
  Demo.handle_input "Too VAGUE" Demo.asked
    = Demo.handle_input (Demo.lower "Too VAGUE") Demo.asked.
Proof.
  destruct (handle_input_feedback_ignores_case Demo.lower Demo.split
              Demo.embedding Demo.encode Demo.cos_sim Demo.qa_model
              Demo.asked "Too VAGUE") as [Hsame Hlower].
  { vm_compute. reflexivity. }
  split; [apply Hsame|apply Hlower]; reflexivity.
Defined.

Lemma handle_input_query_witness :
  exists secs embs context,
    sections (session Demo.uploaded) = Some secs /\
    section_embeddings (session Demo.uploaded) = Some embs /\
    find_relevant_section Demo.lower Demo.split Demo.embedding Demo.encode
      Demo.cos_sim
      "Do you sell gift cards?" secs embs = Ok context /\
    let run := Demo.handle_input "Do you sell gift cards?" Demo.uploaded in
    current_query (session (snd run)) = Some "Do you sell gift cards?" /\
    match (if String.eqb context sentinel then Ok context
           else Demo.qa_model "Do you sell gift cards?" context None) with
    | Ok answer =>
        fst run = Ok (chat_history (session (snd run))) /\
        mode (session (snd run)) = waiting_for_feedback /\
        last_answer (session (snd run)) = Some answer /\
        chat_history (session (snd run))
          = (chat_history (session Demo.uploaded)
             ++ [("User", "Do you sell gift cards?");
                 ("Bot", ("Answer: " ++ answer ++ nl
                          ++ "Please provide feedback: good, too vague, not helpful.")%string)])%list
    | Raise e =>
        fst run = Raise e /\
        mode (session (snd run)) = waiting_for_query /\
        last_answer (session (snd run)) = last_answer (session Demo.uploaded) /\
        chat_history (session (snd run)) = chat_history (session Demo.uploaded)
    end.
Proof.
  apply (handle_input_query Demo.lower Demo.split Demo.embedding Demo.encode
           Demo.cos_sim Demo.qa_model Demo.read_text
           Demo.extract_text_from_pdf).
  - apply demo_uploaded_reachable.
  - vm_compute. reflexivity.
Defined.

Lemma mode_never_back_to_upload_witness :
  mode (session (snd (Demo.handle_input "hello" Demo.fresh)))
    = waiting_for_upload /\
  mode (session (snd (Demo.handle_input "hello" Demo.asked)))
    <> waiting_for_upload /\
  mode (session (snd (Demo.process_file (Some "faq.txt") Demo.asked)))
    <> waiting_for_upload.
Proof.
  split.
  - apply (proj1 (mode_never_back_to_upload Demo.lower Demo.split
                    Demo.embedding Demo.encode
                    Demo.cos_sim Demo.qa_model Demo.read_text
                    Demo.extract_text_from_pdf Demo.fresh "hello" None)).
    reflexivity.
  - apply (proj2 (mode_never_back_to_upload Demo.lower Demo.split
                    Demo.embedding Demo.encode
                    Demo.cos_sim Demo.qa_model Demo.read_text
                    Demo.extract_text_from_pdf Demo.asked "hello"
                    (Some "faq.txt"))).
    vm_compute. discriminate.
Defined.

Lemma too_vague_twice_witness :
  let w' := snd (Demo.handle_input "too vague"
                   (snd (Demo.handle_input "Too Vague" Demo.asked))) in
  last_answer (session w')
    = Some (more_details
              (more_details "Shipping" "Shipping takes 5-7 business days.")
              "Shipping takes 5-7 business days.") /\
  feedback_count (session w') = 2 /\
  mode (session w') = waiting_for_feedback /\
  qa_calls w' = qa_calls Demo.asked.
Proof.
  apply (too_vague_twice Demo.lower Demo.split Demo.embedding Demo.encode
           Demo.cos_sim Demo.qa_model Demo.asked "Too Vague" "too vague"
           "Shipping" "Shipping takes how long?"
           "Shipping takes 5-7 business days."
           ["Returns are accepted within 30 days.";
            "Shipping takes 5-7 business days."]
           (map Demo.encode ["Returns are accepted within 30 days.";
                             "Shipping takes 5-7 business days."]));
    vm_compute; reflexivity.
Defined.
